(** * Pelican build orchestrator: settings migration, pipeline, watch loop

    A shallow embedding of [pelican/__init__.py] (class [Pelican] and
    [main]) together with the properties its specification states.

    - Python values that settings hold are the inductive [PyVal].
    - The settings dict is a [gmap string PyVal].  [Pelican.__init__]
      writes to the dict it is handed: it runs on a heap that holds the
      world and that dict.
    - Code that raises is embedded in a state-and-error monad whose runs
      also return the list of observable events they produced (log
      records and calls into collaborators that live in other modules).
    - Collaborators of other modules ([pelican.generators],
      [pelican.utils], [pelican.writers], [os.path], [time]) are the
      fields of the class [Externals]. *)

From Stdlib Require Import String Ascii List Bool Arith ZArith Lia.
From stdpp Require Import base option list strings pretty gmap fin_maps.
Import ListNotations.

Local Open Scope string_scope.
Local Open Scope list_scope.

(* String concatenation computes under [simpl] once its first argument
   shows a constructor. *)
Local Arguments String.append !s1 s2 : simpl nomatch.

(** ** Python values and exceptions *)

(** The values a settings file or the command line gives.  A string is
    a byte string ([str]); an integer is taken to fit a machine word
    ([int], not [long]).  [PyPelicanClass] is the class object
    [Pelican] of this module, which [PELICAN_CLASS] may hold; it is the
    one class object among the values. *)
Inductive PyVal :=
| PyNone
| PyBool (b : bool)
| PyInt (n : Z)
| PyStr (s : string)
| PyList (l : list string)
| PyPelicanClass.

Global Instance PyVal_eq_dec : EqDecision PyVal.
Proof. solve_decision. Defined.

(** [bool(v)]: the truth value Python gives to [v]. *)
Definition truthy (v : PyVal) : bool :=
  match v with
  | PyNone => false
  | PyBool b => b
  | PyInt n => negb (n =? 0)%Z
  | PyStr s => negb (String.eqb s "")
  | PyList l => match l with [] => false | _ => true end
  | PyPelicanClass => true
  end.

(** [type(v).__name__] *)
Definition type_name (v : PyVal) : string :=
  match v with
  | PyNone => "NoneType"
  | PyBool _ => "bool"
  | PyInt _ => "int"
  | PyStr _ => "str"
  | PyList _ => "list"
  | PyPelicanClass => "type"
  end.

(** An optional string argument ([None] or a [str]) as a value. *)
Definition of_arg (a : option string) : PyVal :=
  match a with Some s => PyStr s | None => PyNone end.

(** ["%s" % a] for an optional string argument. *)
Definition format_arg (a : option string) : string :=
  match a with Some s => s | None => "None" end.

(** Exceptions. [PyException] stands for every instance of [Exception]
    (or a subclass): its class name, its message (the byte string that
    [str(e)] gives), and the value of its [exitcode] attribute when it
    has one.  [KeyboardInterrupt] and [SystemExit] derive from
    [BaseException] only. *)
Inductive Exn :=
| PyException (cls : string) (msg : string) (exitcode : option PyVal)
| KeyboardInterrupt
| SystemExit (code : PyVal).

(** [unicode] of a [KeyError] is the [repr] of the key. *)
Definition KeyError (k : string) : Exn :=
  PyException "KeyError" ("'" +:+ k +:+ "'") None.
Definition TypeError (msg : string) : Exn := PyException "TypeError" msg None.
Definition AttributeError (msg : string) : Exn :=
  PyException "AttributeError" msg None.
Definition Exception (msg : string) : Exn := PyException "Exception" msg None.
Definition ValueError (msg : string) : Exn := PyException "ValueError" msg None.
Definition ImportError (msg : string) : Exn := PyException "ImportError" msg None.
Definition UnicodeDecodeError (msg : string) : Exn :=
  PyException "UnicodeDecodeError" msg None.

(** The error of [v.attr] for a value that has no such attribute. *)
Definition no_attribute (v : PyVal) (attr : string) : Exn :=
  AttributeError
    (match v with
     | PyPelicanClass => "type object 'Pelican'"
     | _ => "'" +:+ type_name v +:+ "' object"
     end +:+ " has no attribute '" +:+ attr +:+ "'").

(** The error of [v(...)] for a value that cannot be called. *)
Definition not_callable (v : PyVal) : Exn :=
  TypeError ("'" +:+ type_name v +:+ "' object is not callable").

(** [isinstance(e, Exception)] *)
Definition is_Exception (e : Exn) : bool :=
  match e with PyException _ _ _ => true | _ => false end.

(** [getattr(e, 'exitcode', 1)] *)
Definition getattr_exitcode (e : Exn) : PyVal :=
  match e with
  | PyException _ _ (Some c) => c
  | _ => PyInt 1
  end.

(** ** Characters and strings *)

Definition code (c : ascii) : nat := nat_of_ascii c.

Definition between (lo hi : nat) (c : ascii) : bool :=
  ((lo <=? code c)%nat && (code c <=? hi)%nat)%bool.

(** [\w] of [re] on a byte string without flags: [[a-zA-Z0-9_]]. *)
Definition is_word (c : ascii) : bool :=
  between 97 122 c || between 65 90 c || between 48 57 c
  || Ascii.eqb c "_"%char.

(** The character class [[A-z]]: every code point from ['A'] (65) to
    ['z'] (122), which includes the six punctuation characters that sit
    between ['Z'] and ['a']. *)
Definition is_A_to_z (c : ascii) : bool := between 65 122 c.

(** [s.startswith(p)] *)
Definition startswith (s p : string) : bool := String.prefix p s.

(** [s.endswith('/')] *)
Fixpoint endswith_slash (s : string) : bool :=
  match s with
  | EmptyString => false
  | String c EmptyString => Ascii.eqb c "/"%char
  | String _ r => endswith_slash r
  end.

(** [s[:-1]] *)
Fixpoint drop_last (s : string) : string :=
  match s with
  | EmptyString => EmptyString
  | String _ EmptyString => EmptyString
  | String c r => String c (drop_last r)
  end.

(** [s.lstrip()]: the whitespace of a byte string is the space and the
    codes 9 to 13. *)
Definition is_space (c : ascii) : bool :=
  Ascii.eqb c " "%char || between 9 13 c.

Fixpoint lstrip (s : string) : string :=
  match s with
  | String c r => if is_space c then lstrip r else s
  | EmptyString => EmptyString
  end.

Fixpoint rstrip (s : string) : string :=
  match s with
  | String c r =>
      let r' := rstrip r in
      if is_space c && String.eqb r' "" then EmptyString else String c r'
  | EmptyString => EmptyString
  end.

(** [s.strip()] *)
Definition strip (s : string) : string := rstrip (lstrip s).

(** [s.lower()] on a byte string. *)
Fixpoint lower (s : string) : string :=
  match s with
  | String c r =>
      String (if between 65 90 c then ascii_of_nat (code c + 32) else c)
             (lower r)
  | EmptyString => EmptyString
  end.

(** [s.split(',')] *)
Fixpoint split_comma (s : string) : list string :=
  match s with
  | EmptyString => [EmptyString]
  | String c r =>
      if Ascii.eqb c ","%char then EmptyString :: split_comma r
      else match split_comma r with
           | h :: t => String c h :: t
           | [] => [String c EmptyString]
           end
  end.

(** [s.rsplit('.', 1)] unpacked into two names: what stands before and
    what stands after the last dot; nothing when [s] has no dot. *)
Fixpoint rsplit_dot (s : string) : option (string * string) :=
  match s with
  | EmptyString => None
  | String c r =>
      match rsplit_dot r with
      | Some (a, b) => Some (String c a, b)
      | None => if Ascii.eqb c "."%char then Some (EmptyString, r) else None
      end
  end.

(** The first byte of [s] that is not ASCII, and its position counted
    from [pos]. *)
Fixpoint first_non_ascii_from (pos : nat) (s : string) : option (nat * ascii) :=
  match s with
  | EmptyString => None
  | String c r =>
      if (128 <=? code c)%nat then Some (pos, c)
      else first_non_ascii_from (S pos) r
  end.

Definition first_non_ascii (s : string) : option (nat * ascii) :=
  first_non_ascii_from 0 s.

(** ["%x" % n] for [n] below 16. *)
Definition hex_digit (n : nat) : ascii :=
  if (n <? 10)%nat then ascii_of_nat (48 + n) else ascii_of_nat (87 + n).

(** ["%02x" % ord(c)] *)
Definition hex_byte (c : ascii) : string :=
  String (hex_digit (code c / 16)) (String (hex_digit (code c mod 16)) "").

(** [posixpath.join(a, b)]: an absolute [b] replaces [a]; otherwise [b]
    is appended, after a separator unless [a] is empty or already ends
    with one. *)
Definition os_path_join (a b : string) : string :=
  if startswith b "/" then b
  else if String.eqb a "" || endswith_slash a then a +:+ b
  else a +:+ "/" +:+ b.

(** ** [re.sub]

    [re_sub matcher s] scans [s] from the left.  [matcher] tries the
    pattern anchored at the head of its argument and answers with the
    replacement text and the input that follows the match.  After a
    match the scan resumes behind it; otherwise one character is copied
    and the scan moves on by one.  The recursion is on a bound that the
    length of the input always meets (see [re_sub_match],
    [re_sub_skip]). *)

Fixpoint re_sub_from (matcher : string -> option (string * string))
    (bound : nat) (s : string) : string :=
  match bound with
  | O => s
  | S bound' =>
      match matcher s with
      | Some (repl, rest) => repl +:+ re_sub_from matcher bound' rest
      | None =>
          match s with
          | EmptyString => EmptyString
          | String c r => String c (re_sub_from matcher bound' r)
          end
      end
  end.

Definition re_sub (matcher : string -> option (string * string))
    (s : string) : string :=
  re_sub_from matcher (String.length s) s.

(** The longest run of [\w] characters at the head of [s], and the rest. *)
Fixpoint span_word (s : string) : string * string :=
  match s with
  | String c r =>
      if is_word c then let (w, t) := span_word r in (String c w, t)
      else (EmptyString, s)
  | EmptyString => (EmptyString, EmptyString)
  end.

(** [s] without its first character [c], when it starts with [c]. *)
Definition eat (c : ascii) (s : string) : option string :=
  match s with
  | String d r => if Ascii.eqb d c then Some r else None
  | EmptyString => None
  end.

(** ['%\((\w+)\)s'] with replacement ['{\g<1>}'].  [\w+] is greedy and
    the character that must follow it is not a word character, so the
    pattern matches exactly when the longest run is non-empty and is
    followed by [")s"]. *)
Definition match_named (s : string) : option (string * string) :=
  r ← eat "%" s;
  r ← eat "(" r;
  let (name, r) := span_word r in
  if String.eqb name "" then None
  else
    r ← eat ")" r;
    r ← eat "s" r;
    Some ("{" +:+ name +:+ "}", r).

(** ['(%[A-z])'] with replacement ['{date:\g<1>}']. *)
Definition match_strftime (s : string) : option (string * string) :=
  r ← eat "%" s;
  match r with
  | String c t =>
      if is_A_to_z c then Some ("{date:%" +:+ String c "}", t) else None
  | EmptyString => None
  end.

(** [re.sub('^/', '', s)]: without [re.MULTILINE], [^] matches at the
    start of the string only. *)
Definition strip_leading_slash (s : string) : string :=
  match eat "/" s with
  | Some r => r
  | None => s
  end.

(** Lines 84-90: the three substitutions applied to the legacy
    structure. *)
Definition convert_structure (structure : string) : string :=
  let structure := re_sub match_named structure in
  let structure := re_sub match_strftime structure in
  strip_leading_slash structure.

(** ** Settings *)

(** The settings dict: configuration key to value. *)
Abbreviation Settings := (gmap string PyVal).

(** [repr] of a string inside a list; exact for strings free of quotes,
    backslashes and non-printable characters. *)
Definition repr_str (s : string) : string := "'" +:+ s +:+ "'".

Fixpoint join_with (sep : string) (l : list string) : string :=
  match l with
  | [] => ""
  | [x] => x
  | x :: r => x +:+ sep +:+ join_with sep r
  end.

(** ["%s" % v] *)
Definition format_s (v : PyVal) : string :=
  match v with
  | PyNone => "None"
  | PyBool true => "True"
  | PyBool false => "False"
  | PyInt n => pretty n
  | PyStr s => s
  | PyList l => "[" +:+ join_with ", " (map repr_str l) +:+ "]"
  | PyPelicanClass => "<class 'pelican.Pelican'>"
  end.

(** ** Generators and observable events *)

Inductive GeneratorClass :=
| ArticlesGenerator
| PagesGenerator
| StaticGenerator
| PdfGenerator.

Global Instance GeneratorClass_eq_dec : EqDecision GeneratorClass.
Proof. solve_decision. Defined.

(** What a run of the embedded code lets the outside see, in order:
    log records, and the calls into collaborators.  [CallRun] marks the
    entry into [Pelican.run]. *)
Inductive Event :=
| Warning (msg : string)
| Critical (msg : string)
| CallRun
| Construct (cls : GeneratorClass)
| GenerateContext (cls : GeneratorClass)
| CleanOutputDir (path : string)
| NewWriter (output_path : string)
| GenerateOutput (cls : GeneratorClass)
| FilesChanged (path : PyVal) (extensions : PyVal)
| Sleep.

Global Instance Event_eq_dec : EqDecision Event.
Proof. solve_decision. Defined.

(** Kinds of events. *)
Definition is_warning (ev : Event) : bool :=
  match ev with Warning _ => true | _ => false end.

Definition is_run (ev : Event) : bool :=
  match ev with CallRun => true | _ => false end.

Definition is_poll (ev : Event) : bool :=
  match ev with FilesChanged _ _ => true | _ => false end.

Definition is_generate_context (ev : Event) : bool :=
  match ev with GenerateContext _ => true | _ => false end.

Definition is_cleanup (ev : Event) : bool :=
  match ev with CleanOutputDir _ => true | _ => false end.

(** The events of what [run] does once the context phase is over: the
    cleanup, the construction of the writer, the output phase. *)
Definition after_context (ev : Event) : bool :=
  match ev with
  | CleanOutputDir _ | NewWriter _ | GenerateOutput _ => true
  | _ => false
  end.

(** How often [run] was entered. *)
Definition count_runs (evs : list Event) : nat :=
  length (List.filter is_run evs).

(** ** The monad: state, exceptions, and an event log *)

Inductive Outcome (A : Type) :=
| Ret (a : A)
| Raise (e : Exn).
Arguments Ret {A} a.
Arguments Raise {A} e.

Record Run (S A : Type) := MkRun {
  outcome : Outcome A;
  final : S;
  events : list Event }.
Arguments MkRun {S A} outcome final events.
Arguments outcome {S A} r.
Arguments final {S A} r.
Arguments events {S A} r.

Definition M (S A : Type) : Type := S -> Run S A.

Definition ret {S A} (a : A) : M S A := fun s => MkRun (Ret a) s [].

Definition raise {S A} (e : Exn) : M S A := fun s => MkRun (Raise e) s [].

Definition bind {S A B} (m : M S A) (k : A -> M S B) : M S B :=
  fun s =>
    let r := m s in
    match outcome r with
    | Ret a =>
        let r' := k a (final r) in
        MkRun (outcome r') (final r') (events r ++ events r')
    | Raise e => MkRun (Raise e) (final r) (events r)
    end.

Global Instance M_ret {S} : MRet (M S) := fun A a => ret a.
Global Instance M_bind {S} : MBind (M S) := fun A B k m => bind m k.

Definition emit {S} (ev : Event) : M S unit :=
  fun s => MkRun (Ret tt) s [ev].

(** [if b: raise e] *)
Definition raise_if {S} (b : bool) (e : Exn) : M S unit :=
  if b then raise e else ret tt.

(** [str(e)] *)
Definition str (e : Exn) : string :=
  match e with
  | PyException _ msg _ => msg
  | KeyboardInterrupt => ""
  | SystemExit c => format_s c
  end.

(** The error of the ASCII codec for the byte [c] at position [pos]. *)
Definition decode_error (pos : nat) (c : ascii) : Exn :=
  UnicodeDecodeError
    ("'ascii' codec can't decode byte 0x" +:+ hex_byte c
     +:+ " in position " +:+ pretty pos
     +:+ ": ordinal not in range(128)").

(** [unicode(s)] for a byte string: the ASCII codec decodes it, and
    raises at the first byte that is not ASCII. *)
Definition decode_ascii {S} (s : string) : M S string :=
  match first_non_ascii s with
  | None => ret s
  | Some (pos, c) => raise (decode_error pos c)
  end.

(** [unicode(e)] *)
Definition unicode {S} (e : Exn) : M S string := decode_ascii (str e).

(** [for x in l: body(x)] *)
Fixpoint for_each {S A} (l : list A) (body : A -> M S unit) : M S unit :=
  match l with
  | [] => ret tt
  | x :: r => body x ;; for_each r body
  end.

(** A computation whose only events are warnings. *)
Definition only_warnings {S A} (m : M S A) : Prop :=
  forall s, Forall (fun ev => is_warning ev = true) (events (m s)).

(** A computation that leaves the state as it is and whose only events
    are warnings. *)
Definition observer {S A} (m : M S A) : Prop :=
  forall s, final (m s) = s /\ Forall (fun ev => is_warning ev = true) (events (m s)).

(** *** The settings dict as state *)

(** [settings[k]] *)
Definition getitem (k : string) : M Settings PyVal :=
  fun s =>
    match s !! k with
    | Some v => ret v s
    | None => raise (KeyError k) s
    end.

(** [settings.get(k, d)] *)
Definition get_default (k : string) (d : PyVal) : M Settings PyVal :=
  fun s => ret (default d (s !! k)) s.

(** [settings[k] = v] *)
Definition setitem (k : string) (v : PyVal) : M Settings unit :=
  fun s => MkRun (Ret tt) (<[k := v]> s) [].

(** [logger.warning(msg)] *)
Definition warning {S} (msg : string) : M S unit := emit (Warning msg).

(** A value handed to [re.sub] must be a string. *)
Definition expect_string {S} (v : PyVal) : M S string :=
  match v with
  | PyStr s => ret s
  | _ => raise (TypeError "expected string or buffer")
  end.

(** [os.path.join(a, v)] calls [v.startswith]: only a string has it. *)
Definition join_value {S} (a : string) (v : PyVal) : M S string :=
  match v with
  | PyStr b => ret (os_path_join a b)
  | _ => raise (no_attribute v "startswith")
  end.

(** A value whose string method [attr] is called must be a string. *)
Definition expect_str_attr {S} (attr : string) (v : PyVal) : M S string :=
  match v with
  | PyStr s => ret s
  | _ => raise (no_attribute v attr)
  end.

(** A value handed to [os.stat] must be a string. *)
Definition expect_path {S} (v : PyVal) : M S string :=
  match v with
  | PyStr s => ret s
  | _ => raise (TypeError ("coercing to Unicode: need string or buffer, "
                           +:+ type_name v +:+ " found"))
  end.

(** ** [Pelican._handle_deprecation] *)

Definition clean_urls_keys : list string :=
  ["ARTICLE_URL"; "ARTICLE_LANG_URL"; "PAGE_URL"; "PAGE_LANG_URL"].

Definition permalink_keys : list string :=
  ["ARTICLE_URL"; "ARTICLE_LANG_URL"; "PAGE_URL"; "PAGE_LANG_URL";
   "ARTICLE_SAVE_AS"; "ARTICLE_LANG_SAVE_AS"; "PAGE_SAVE_AS";
   "PAGE_LANG_SAVE_AS"].

(** [logger.warning("%s = '%s'" % (setting, self.settings[setting]))] *)
Definition warn_setting (setting : string) : M Settings unit :=
  v ← getitem setting;
  warning (setting +:+ " = '" +:+ format_s v +:+ "'").

(** Lines 63-74. *)
Definition deprecated_clean_urls : M Settings unit :=
  flag ← get_default "CLEAN_URLS" (PyBool false);
  if truthy flag then
    warning ("Found deprecated `CLEAN_URLS` in settings. Modifing"
             +:+ " the following settings for the same behaviour.");;
    setitem "ARTICLE_URL" (PyStr "{slug}/");;
    setitem "ARTICLE_LANG_URL" (PyStr "{slug}-{lang}/");;
    setitem "PAGE_URL" (PyStr "pages/{slug}/");;
    setitem "PAGE_LANG_URL" (PyStr "pages/{slug}-{lang}/");;
    for_each clean_urls_keys warn_setting
  else ret tt.

(** The body of the loop of lines 92-98. *)
Definition prefix_setting (structure setting : string) : M Settings unit :=
  old ← getitem setting;
  joined ← join_value structure old;
  setitem setting (PyStr joined);;
  warn_setting setting.

(** Lines 76-98. *)
Definition deprecated_permalink_structure : M Settings unit :=
  flag ← get_default "ARTICLE_PERMALINK_STRUCTURE" (PyBool false);
  if truthy flag then
    warning ("Found deprecated `ARTICLE_PERMALINK_STRUCTURE` in"
             +:+ " settings.  Modifing the following settings for"
             +:+ " the same behaviour.");;
    structure ← getitem "ARTICLE_PERMALINK_STRUCTURE";
    structure ← expect_string structure;
    let structure := convert_structure structure in
    for_each permalink_keys (prefix_setting structure)
  else ret tt.

Definition _handle_deprecation : M Settings unit :=
  deprecated_clean_urls;;
  deprecated_permalink_structure.

(** ** The orchestrator and its collaborators *)

(** The arguments every generator is constructed with (lines 105-113). *)
Record GenArgs := MkGenArgs {
  ga_context : Settings;
  ga_settings : Settings;
  ga_path : string;
  ga_theme : PyVal;
  ga_output_path : string;
  ga_markup : PyVal;
  ga_delete_outputdir : PyVal }.

(** A generator instance: its class and what it was constructed with.
    What an instance accumulates afterwards lives in the world. *)
Record Generator := MkGenerator {
  gen_class : GeneratorClass;
  gen_args : GenArgs }.

Record Writer := MkWriter {
  writer_output_path : string;
  writer_settings : Settings }.

(** The attributes of a [Pelican] instance. *)
Record Pelican := MkPelican {
  self_path : string;
  self_settings : Settings;
  self_theme : PyVal;
  self_output_path : string;
  self_markup : PyVal;
  self_delete_outputdir : PyVal }.

(** The parsed command line ([parse_arguments]). *)
Record Args := MkArgs {
  args_path : option string;
  args_theme : option string;
  args_output : option string;
  args_markup : option string;
  args_settings : option string;
  args_delete_outputdir : bool;
  args_verbosity : option Z;
  args_autoreload : bool }.

(** [logging.DEBUG] *)
Definition logging_DEBUG : Z := 10.

(** What the module imports from elsewhere, over a state [World] of the
    file system, the clock and the heap of the collaborators.  An
    operation may change the world and may raise.  Settings are passed
    by value: collaborators are taken not to write to the settings dict
    they are handed. *)
Class Externals (World : Type) := {
  (** [cls(context, settings, path, theme, output_path, markup,
      delete_outputdir)] for a generator class of [pelican.generators] *)
  construct : GeneratorClass -> GenArgs -> World -> Outcome unit * World;
  (** [hasattr(p, 'generate_context')] *)
  has_generate_context : GeneratorClass -> bool;
  (** [p.generate_context()] *)
  generate_context : Generator -> World -> Outcome unit * World;
  (** [hasattr(p, 'generate_output')] *)
  has_generate_output : GeneratorClass -> bool;
  (** [p.generate_output(writer)] *)
  generate_output : Generator -> Writer -> World -> Outcome unit * World;
  (** [Writer(output_path, settings=settings)] *)
  new_writer : string -> Settings -> World -> Outcome unit * World;
  (** [pelican.utils.clean_output_dir(path)] *)
  clean_output_dir : string -> World -> Outcome unit * World;
  (** [os.path.realpath(path)] *)
  realpath : World -> string -> string;
  (** [os.path.exists(path)] *)
  path_exists : World -> string -> bool;
  (** [pelican.utils.files_changed(path, extensions)] *)
  files_changed : PyVal -> PyVal -> World -> Outcome bool * World;
  (** [time.sleep(.5)] *)
  sleep : World -> Outcome unit * World;
  (** [pelican.log.init(verbosity)] *)
  log_init : option Z -> World -> Outcome unit * World;
  (** [pelican.settings.read_settings(filename)] *)
  read_settings : option string -> World -> Outcome Settings * World;
  (** [getattr(__import__(module), cls_name)] *)
  import_attr : string -> string -> World -> Outcome PyVal * World;
  (** [os.path.dirname(os.path.abspath(__file__))] *)
  package_dir : string;
  (** [pelican.settings._DEFAULT_CONFIG] *)
  _DEFAULT_CONFIG : Settings }.

Inductive LoopControl := Continue | Break.

Section Orchestrator.

Context {World : Type} `{Ext : Externals World}.

(** A call into a collaborator. *)
Definition call {A} (op : World -> Outcome A * World) : M World A :=
  fun w => let (o, w') := op w in MkRun o w' [].

(** A read of the world. *)
Definition ask {A} (f : World -> A) : M World A :=
  fun w => ret (f w) w.

(** [settings[k]] on a dict that is not the state. *)
Definition item (settings : Settings) (k : string) : M World PyVal :=
  match settings !! k with
  | Some v => ret v
  | None => raise (KeyError k)
  end.

(** *** The constructor

    [Pelican.__init__] is handed a dict and writes to it in place (line
    43).  It runs on a heap: the world of the collaborators, and the
    dict that its parameter [settings] names, which is the caller's
    dict or, for [None], the dict [_DEFAULT_CONFIG]. *)

Definition Heap : Type := World * Settings.

(** A computation on the world, on the heap. *)
Definition in_world {A} (m : M World A) : M Heap A :=
  fun h =>
    let r := m (fst h) in
    MkRun (outcome r) (final r, snd h) (events r).

(** A computation on the dict, on the heap. *)
Definition in_settings {A} (m : M Settings A) : M Heap A :=
  fun h =>
    let r := m (snd h) in
    MkRun (outcome r) (fst h, final r) (events r).

(** [a or settings[k]]: the lookup happens only when [a] is falsy. *)
Definition or_setting (a : PyVal) (k : string) : M Heap PyVal :=
  if truthy a then ret a else in_settings (getitem k).

(** The dict as it is now. *)
Definition the_settings : M Heap Settings :=
  fun h => ret (snd h) h.

(** Lines 32-50 of [Pelican.__init__]: the attributes of the instance,
    read from the arguments and the dict, and the migration of the
    deprecated settings in between.  The instance holds the dict itself
    (line 41), so [self_settings] is the dict as these lines leave
    it. *)
Definition init_attributes_in_place
    (path theme output_path : option string)
    (markup : option (list string)) (delete_outputdir : bool)
  : M Heap Pelican :=
  p ← or_setting (of_arg path) "PATH";
  raise_if (negb (truthy p))
    (Exception ("You need to specify a path containing the content"
                +:+ " (see pelican --help for more information)"));;
  p ← expect_str_attr "endswith" p;
  let p := if endswith_slash p then drop_last p else p in
  in_settings _handle_deprecation;;
  th ← or_setting (of_arg theme) "THEME";
  out ← or_setting (of_arg output_path) "OUTPUT_PATH";
  out ← expect_str_attr "startswith" out;
  out ← in_world (ask (fun w => realpath w out));
  mk ← or_setting (match markup with Some l => PyList l | None => PyNone end)
                  "MARKUP";
  del ← or_setting (PyBool delete_outputdir) "DELETE_OUTPUT_DIRECTORY";
  settings ← the_settings;
  ret (MkPelican p settings th out mk del).

(** [os.sep.join([os.path.dirname(os.path.abspath(__file__)),
    "themes/%s" % theme])] *)
Definition bundled_theme (th : string) : string :=
  package_dir +:+ "/" +:+ "themes/" +:+ th.

Definition with_theme (self : Pelican) (th : string) : Pelican :=
  MkPelican (self_path self) (self_settings self) (PyStr th)
    (self_output_path self) (self_markup self) (self_delete_outputdir self).

(** Lines 52-59 of [Pelican.__init__]: the theme, or the bundled theme
    of that name.  The message names the [theme] argument. *)
Definition find_theme (theme : option string) (self : Pelican)
  : M World Pelican :=
  th ← expect_path (self_theme self);
  found ← ask (fun w => path_exists w th);
  if found : bool then ret self
  else
    let theme_path := bundled_theme th in
    found ← ask (fun w => path_exists w theme_path);
    if found : bool then ret (with_theme self theme_path)
    else raise (Exception ("Impossible to find the theme "
                           +:+ format_arg theme)).

(** Lines 32-59 of [Pelican.__init__], on the heap. *)
Definition init_in_place (path theme output_path : option string)
    (markup : option (list string)) (delete_outputdir : bool)
  : M Heap Pelican :=
  self ← init_attributes_in_place path theme output_path markup
           delete_outputdir;
  in_world (find_theme theme self).

(** A call that hands over a dict, for a caller that does not look at
    the dict again: the run on the heap without its dict. *)
Definition by_value {A} (m : M Heap A) (settings : Settings) : M World A :=
  fun w =>
    let r := m (w, settings) in
    MkRun (outcome r) (fst (final r)) (events r).

(** A computation on the heap that leaves the world as it is and whose
    only events are warnings. *)
Definition world_observer {A} (m : M Heap A) : Prop :=
  forall h, fst (final (m h)) = fst h
            /\ Forall (fun ev => is_warning ev = true) (events (m h)).

(** Lines 29-50 for the argument [settings]: [None] stands for
    [_DEFAULT_CONFIG] (lines 29-30). *)
Definition init_attributes (settings : option Settings)
    (path theme output_path : option string)
    (markup : option (list string)) (delete_outputdir : bool)
  : M World Pelican :=
  by_value (init_attributes_in_place path theme output_path markup
              delete_outputdir)
    (default _DEFAULT_CONFIG settings).

(** [Pelican.__init__], lines 24-59. *)
Definition __init__ (settings : option Settings)
    (path theme output_path : option string)
    (markup : option (list string)) (delete_outputdir : bool)
  : M World Pelican :=
  by_value (init_in_place path theme output_path markup delete_outputdir)
    (default _DEFAULT_CONFIG settings).

(** [Pelican.get_generator_classes], lines 132-136. *)
Definition get_generator_classes (self : Pelican)
  : M World (list GeneratorClass) :=
  let generators := [ArticlesGenerator; PagesGenerator; StaticGenerator] in
  pdf ← item (self_settings self) "PDF_GENERATOR";
  ret (if truthy pdf then generators ++ [PdfGenerator] else generators).

(** [Pelican.get_writer], lines 138-139. *)
Definition get_writer (self : Pelican) : M World Writer :=
  emit (NewWriter (self_output_path self));;
  call (new_writer (self_output_path self) (self_settings self));;
  ret (MkWriter (self_output_path self) (self_settings self)).

(** The list comprehension of lines 104-114. *)
Fixpoint construct_all (args : GenArgs) (classes : list GeneratorClass)
  : M World (list Generator) :=
  match classes with
  | [] => ret []
  | cls :: rest =>
      emit (Construct cls);;
      call (construct cls args);;
      generators ← construct_all args rest;
      ret (MkGenerator cls args :: generators)
  end.

(** Lines 116-118. *)
Definition context_phase (generators : list Generator) : M World unit :=
  for_each generators (fun p =>
    if has_generate_context (gen_class p) then
      emit (GenerateContext (gen_class p));;
      call (generate_context p)
    else ret tt).

(** Lines 120-124. *)
Definition cleanup_decision (self : Pelican) : M World unit :=
  if truthy (self_delete_outputdir self) then
    content ← ask (fun w => realpath w (self_path self));
    if negb (startswith content (self_output_path self)) then
      emit (CleanOutputDir (self_output_path self));;
      call (clean_output_dir (self_output_path self))
    else ret tt
  else ret tt.

(** Lines 128-130. *)
Definition output_phase (generators : list Generator) (writer : Writer)
  : M World unit :=
  for_each generators (fun p =>
    if has_generate_output (gen_class p) then
      emit (GenerateOutput (gen_class p));;
      call (generate_output p writer)
    else ret tt).

(** [Pelican.run], lines 100-130. *)
Definition run (self : Pelican) : M World unit :=
  emit CallRun;;
  let context := self_settings self in
  classes ← get_generator_classes self;
  generators ←
    construct_all
      (MkGenArgs context (self_settings self) (self_path self)
         (self_theme self) (self_output_path self) (self_markup self)
         (self_delete_outputdir self))
      classes;
  context_phase generators;;
  cleanup_decision self;;
  writer ← get_writer self;
  output_phase generators writer.

(** *** The stages of [run], named

    [run] is [prepare] followed by [finish] (lemma [run_stages]). *)

Definition generator_args (self : Pelican) : GenArgs :=
  MkGenArgs (self_settings self) (self_settings self) (self_path self)
    (self_theme self) (self_output_path self) (self_markup self)
    (self_delete_outputdir self).

(** Lines 103-114: the generators are constructed. *)
Definition setup (self : Pelican) : M World (list Generator) :=
  emit CallRun;;
  classes ← get_generator_classes self;
  construct_all (generator_args self) classes.

(** Lines 103-118: up to the end of the context phase. *)
Definition prepare (self : Pelican) : M World (list Generator) :=
  generators ← setup self;
  context_phase generators;;
  ret generators.

(** Lines 126-130: the writer and the output phase, which is what
    follows the context phase when nothing is cleaned. *)
Definition write_output (generators : list Generator) (self : Pelican)
  : M World unit :=
  writer ← get_writer self;
  output_phase generators writer.

(** Lines 120-130. *)
Definition finish (self : Pelican) (generators : list Generator)
  : M World unit :=
  cleanup_decision self;;
  write_output generators self.

(** The content path is the output path or lies below it: it is the
    output path joined with a relative path. *)
Definition content_under (output_path content : string) : Prop :=
  content = output_path \/
  exists rest, startswith rest "/" = false /\
               content = os_path_join output_path rest.

(** *** The watch loop and [main] *)

(** The condition of line 219-220; [or] asks about the theme tree only
    when the content tree reports no change. *)
Definition poll (pelican : Pelican) : M World bool :=
  emit (FilesChanged (PyStr (self_path pelican)) (self_markup pelican));;
  changed ← call (files_changed (PyStr (self_path pelican))
                    (self_markup pelican));
  if changed : bool then ret true
  else
    emit (FilesChanged (self_theme pelican) (PyList [""]));;
    call (files_changed (self_theme pelican) (PyList [""])).

(** The body of the [try] of lines 213-222. *)
Definition tick (pelican : Pelican) : M World unit :=
  changed ← poll pelican;
  (if changed : bool then run pelican else ret tt);;
  emit Sleep;;
  call sleep.

(** [try: m except KeyboardInterrupt: break] inside [while True]. *)
Definition or_break (m : M World unit) : M World LoopControl :=
  fun w =>
    let r := m w in
    match outcome r with
    | Ret _ => MkRun (Ret Continue) (final r) (events r)
    | Raise KeyboardInterrupt => MkRun (Ret Break) (final r) (events r)
    | Raise e => MkRun (Raise e) (final r) (events r)
    end.

(** One pass through the [while True] of lines 212-224. *)
Definition watch_iteration (pelican : Pelican) : M World LoopControl :=
  or_break (tick pelican).

(** The first [n] passes of the loop.  [Some tt]: the loop was left by
    [break]; [None]: it is still running after [n] passes. *)
Fixpoint watch_loop (n : nat) (pelican : Pelican) : M World (option unit) :=
  match n with
  | O => ret None
  | S n' =>
      c ← watch_iteration pelican;
      match c with
      | Break => ret (Some tt)
      | Continue => watch_loop n' pelican
      end
  end.

(** [try: m except Exception, e: handler(e)] *)
Definition try_except {A} (m : M World A) (handler : Exn -> M World A)
  : M World A :=
  fun w =>
    let r := m w in
    match outcome r with
    | Ret a => r
    | Raise e =>
        if is_Exception e then
          let r' := handler e (final r) in
          MkRun (outcome r') (final r') (events r ++ events r')
        else r
    end.

(** Lines 197-198. *)
Definition parse_markup (markup : option string) : option (list string) :=
  match markup with
  | Some m =>
      if truthy (PyStr m) then Some (map (fun a => lower (strip a)) (split_comma m))
      else None
  | None => None
  end.

(** Lines 202-206: the class named by [PELICAN_CLASS]; a string names
    it as [module.cls_name] and is imported. *)
Definition pelican_class (settings : Settings) : M World PyVal :=
  let cls := default PyNone (settings !! "PELICAN_CLASS") in
  match cls with
  | PyStr name =>
      match rsplit_dot name with
      | Some (module, cls_name) => call (import_attr module cls_name)
      | None => raise (ValueError "need more than 1 value to unpack")
      end
  | _ => ret cls
  end.

(** Line 209: [cls(settings, path, theme, output_path, markup,
    delete_outputdir)].  Calling the class [Pelican] runs its
    [__init__]; the other values cannot be called. *)
Definition new_pelican (cls : PyVal) (settings : Settings)
    (path theme output_path : option string)
    (markup : option (list string)) (delete_outputdir : bool)
  : M World Pelican :=
  match cls with
  | PyPelicanClass =>
      __init__ (Some settings) path theme output_path markup delete_outputdir
  | _ => raise (not_callable cls)
  end.

(** Lines 209-226, for at most [n] passes of the watch loop. *)
Definition main_try (cls : PyVal) (args : Args) (settings : Settings)
    (n : nat) : M World (option unit) :=
  pelican ← new_pelican cls settings (args_path args) (args_theme args)
              (args_output args) (parse_markup (args_markup args))
              (args_delete_outputdir args);
  if args_autoreload args then watch_loop n pelican
  else run pelican;; ret (Some tt).

(** Lines 227-233. [sys.exit(code)] raises [SystemExit(code)]. *)
Definition main_except (args : Args) (e : Exn) : M World (option unit) :=
  msg ← unicode e;
  emit (Critical msg);;
  if bool_decide (args_verbosity args = Some logging_DEBUG) then raise e
  else raise (SystemExit (getattr_exitcode e)).

(** [main], lines 192-233, for the command line [args]. *)
Definition main (args : Args) (n : nat) : M World (option unit) :=
  call (log_init (args_verbosity args));;
  settings ← call (read_settings (args_settings args));
  cls ← pelican_class settings;
  try_except (main_try cls args settings n) (main_except args).

End Orchestrator.

Arguments Heap World : clear implicits.

(** ** A test double for the collaborators

    Stub generators that record nothing and write nothing, over a world
    that holds the set of existing paths, the generator classes whose
    context step fails, and the answers the next calls of
    [files_changed] will give. *)
Module Stub.

Record World := MkWorld {
  existing : list string;
  broken : list GeneratorClass;
  reports : list bool }.

(** [p] is [dir] or lies below it. *)
Definition under (dir p : string) : bool :=
  String.eqb p dir || startswith p (dir +:+ "/").

(** Modelled from the spec: [pelican.utils.clean_output_dir], which is
    not among the sources; "erase the output directory recursively". *)
Definition erase (dir : string) (w : World) : World :=
  MkWorld (List.filter (fun p => negb (under dir p)) (existing w))
          (broken w) (reports w).

Definition generation_error : Exn :=
  PyException "GenerationError" "generate_context failed" None.

Definition stub_generate_context (g : Generator) (w : World)
  : Outcome unit * World :=
  if bool_decide (gen_class g ∈ broken w) then (Raise generation_error, w)
  else (Ret tt, w).

Definition stub_files_changed (w : World) : Outcome bool * World :=
  match reports w with
  | b :: rest => (Ret b, MkWorld (existing w) (broken w) rest)
  | [] => (Ret false, w)
  end.

(** The module [pelican] has the attribute [Pelican]; no other module
    can be imported. *)
Definition stub_import_attr {W} (module cls_name : string) (w : W)
  : Outcome PyVal * W :=
  if String.eqb module "pelican" then
    if String.eqb cls_name "Pelican" then (Ret PyPelicanClass, w)
    else (Raise (PyException "AttributeError"
                   ("'module' object has no attribute '" +:+ cls_name +:+ "'")
                   None), w)
  else (Raise (ImportError ("No module named " +:+ module)), w).

Definition default_config : Settings :=
  list_to_map
    [("PATH", PyNone);
     ("THEME", PyStr "/themes/notmyidea");
     ("OUTPUT_PATH", PyStr "output/");
     ("MARKUP", PyList ["rst"; "md"]);
     ("DELETE_OUTPUT_DIRECTORY", PyBool false);
     ("PDF_GENERATOR", PyBool false);
     ("PELICAN_CLASS", PyStr "pelican.Pelican");
     ("ARTICLE_URL", PyStr "{slug}.html");
     ("ARTICLE_SAVE_AS", PyStr "{slug}.html");
     ("ARTICLE_LANG_URL", PyStr "{slug}-{lang}.html");
     ("ARTICLE_LANG_SAVE_AS", PyStr "{slug}-{lang}.html");
     ("PAGE_URL", PyStr "pages/{slug}.html");
     ("PAGE_SAVE_AS", PyStr "pages/{slug}.html");
     ("PAGE_LANG_URL", PyStr "pages/{slug}-{lang}.html");
     ("PAGE_LANG_SAVE_AS", PyStr "pages/{slug}-{lang}.html")].

#[global] Instance externals : Externals World := {
  construct _ _ w := (Ret tt, w);
  has_generate_context _ := true;
  generate_context := stub_generate_context;
  has_generate_output _ := true;
  generate_output _ _ w := (Ret tt, w);
  new_writer _ _ w := (Ret tt, w);
  clean_output_dir dir w := (Ret tt, erase dir w);
  realpath _ p := p;
  path_exists w p := bool_decide (p ∈ existing w);
  files_changed _ _ := stub_files_changed;
  sleep w := (Ret tt, w);
  log_init _ w := (Ret tt, w);
  read_settings _ w := (Ret default_config, w);
  import_attr := stub_import_attr;
  package_dir := "/pelican";
  _DEFAULT_CONFIG := default_config }.

(** A source tree [/a/b] with the output directory [/a/b/output] inside
    it, and the default theme. *)
Definition tree : World :=
  MkWorld ["/a"; "/a/b"; "/a/b/post.rst"; "/a/b/output";
           "/a/b/output/post.html"; "/themes/notmyidea"]
          [] [].

(** The same tree when the articles generator cannot read its input. *)
Definition tree_broken : World :=
  MkWorld (existing tree) [ArticlesGenerator] [].

(** The tree with two polls ahead: nothing changed, then the content
    changed. *)
Definition tree_watched : World :=
  MkWorld (existing tree) [] [false; false; true].

(** [Pelican(settings, path, None, output_path, None, delete).run()] *)
Definition build (path output_path : string) (delete_outputdir : bool)
  : M World unit :=
  pelican ← __init__ (Some default_config) (Some path) None
              (Some output_path) None delete_outputdir;
  run pelican.

Definition pelican_of (path output_path : string) (delete_outputdir : bool)
  : Pelican :=
  MkPelican path default_config (PyStr "/themes/notmyidea") output_path
    (PyList ["rst"; "md"]) (PyBool delete_outputdir).

(** A tree without the default theme, where the package has a bundled
    theme [simple]. *)
Definition tree_bundled : World :=
  MkWorld ["/a"; "/a/b"; "/pelican/themes/simple"] [] [].

(** The tree after the first and after the second question of a pass. *)
Definition tree_watched1 : World :=
  MkWorld (existing tree) [] [false; true].

Definition tree_watched2 : World :=
  MkWorld (existing tree) [] [true].

Definition tree_watched3 : World :=
  MkWorld (existing tree) [] [].

(** The generators [run] constructs for [pelican] from the default
    settings. *)
Definition generators_of (pelican : Pelican) : list Generator :=
  map (fun cls => MkGenerator cls (generator_args pelican))
      [ArticlesGenerator; PagesGenerator; StaticGenerator].

(** A command line without a content path. *)
Definition no_path : Args :=
  MkArgs None None None None None false None false.

(** A theme name with a letter outside ASCII: an e with a grave accent,
    in UTF-8 the bytes 195 and 168. *)
Definition accented_theme : string :=
  "th" +:+ String (ascii_of_nat 195) (String (ascii_of_nat 168) "me").

(** A command line that names this theme. *)
Definition accented_theme_args : Args :=
  MkArgs (Some "/a/b") (Some accented_theme) (Some "/out") None None false
    None false.

End Stub.

(** The default URL settings of the application, with both deprecated
    keys set. *)
Definition legacy_settings : Settings :=
  <["CLEAN_URLS" := PyBool true]>
    (<["ARTICLE_PERMALINK_STRUCTURE" := PyStr "/%Y/%m/"]>
       Stub.default_config).

(** The keys of [permalink_keys] that [clean_urls_keys] does not have. *)
Definition save_as_keys : list string :=
  ["ARTICLE_SAVE_AS"; "ARTICLE_LANG_SAVE_AS"; "PAGE_SAVE_AS";
   "PAGE_LANG_SAVE_AS"].

(** ** Legacy permalink structures, token by token

    The reading of a legacy structure that the specification uses: a
    sequence of literal characters, [%(name)s] tokens and [%X] tokens.
    [legacy] writes the sequence in the deprecated syntax and [modern]
    in the syntax of the settings that replace it. *)

Inductive Token :=
| Literal (c : ascii)
| Named (name : string)
| Strftime (c : ascii).

Fixpoint all_word (s : string) : bool :=
  match s with
  | String c r => is_word c && all_word r
  | EmptyString => true
  end.

(** A literal is not the percent sign, a name is a non-empty word, and
    the character of a [%X] token lies in the class the code looks for
    (every letter does). *)
Definition token_ok (t : Token) : bool :=
  match t with
  | Literal c => negb (Ascii.eqb c "%"%char)
  | Named name => negb (String.eqb name "") && all_word name
  | Strftime c => is_A_to_z c
  end.

Definition legacy_token (t : Token) : string :=
  match t with
  | Literal c => String c ""
  | Named name => "%(" +:+ name +:+ ")s"
  | Strftime c => String "%" (String c "")
  end.

Definition modern_token (t : Token) : string :=
  match t with
  | Literal c => String c ""
  | Named name => "{" +:+ name +:+ "}"
  | Strftime c => "{date:%" +:+ String c "}"
  end.

Fixpoint legacy (tokens : list Token) : string :=
  match tokens with
  | [] => ""
  | t :: rest => legacy_token t +:+ legacy rest
  end.

Fixpoint modern (tokens : list Token) : string :=
  match tokens with
  | [] => ""
  | t :: rest => modern_token t +:+ modern rest
  end.

(** The sequence after the first substitution: the named tokens are
    rewritten, the others are not yet. *)
Definition half_token (t : Token) : string :=
  match t with
  | Named _ => modern_token t
  | _ => legacy_token t
  end.

Fixpoint half (tokens : list Token) : string :=
  match tokens with
  | [] => ""
  | t :: rest => half_token t +:+ half rest
  end.

(** The structure [/%Y/%m/%(category)s/] in the default settings. *)
Definition dated_tokens : list Token :=
  [Literal "/"; Strftime "Y"; Literal "/"; Strftime "m"; Literal "/";
   Named "category"; Literal "/"].

Definition dated_settings : Settings :=
  <["ARTICLE_PERMALINK_STRUCTURE" := PyStr (legacy dated_tokens)]>
    Stub.default_config.

(** ** Further settings, worlds and measures *)

(** [c not in s] *)
Fixpoint free_of (c : ascii) (s : string) : bool :=
  match s with
  | String d r => negb (Ascii.eqb d c) && free_of c r
  | EmptyString => true
  end.

(** The default settings with a permalink structure and without the
    setting [ARTICLE_LANG_URL]. *)
Definition incomplete_settings : Settings :=
  delete "ARTICLE_LANG_URL" dated_settings.

(** The default settings with a permalink structure that is no string. *)
Definition mistyped_settings : Settings :=
  <["ARTICLE_PERMALINK_STRUCTURE" := PyBool true]> Stub.default_config.

(** The dated settings with an absolute page URL. *)
Definition absolute_settings : Settings :=
  <["PAGE_URL" := PyStr "/pages/{slug}.html"]> dated_settings.

(** ** A second test double, with faults

    The collaborators of [Stub] over a world that also says which
    constructors fail, which context steps are interrupted from the
    keyboard, whether the sleep is interrupted, whether the settings
    file can be read, and what it holds. *)
Module Faulty.

Record World := MkWorld {
  base : Stub.World;
  bad_constructors : list GeneratorClass;
  interrupted_steps : list GeneratorClass;
  sleep_interrupted : bool;
  settings_unreadable : bool;
  settings_file : Settings }.

Definition with_base (w : World) (b : Stub.World) : World :=
  MkWorld b (bad_constructors w) (interrupted_steps w) (sleep_interrupted w)
    (settings_unreadable w) (settings_file w).

(** Runs an operation of [Stub] on the base of the world. *)
Definition on_base {A} (op : Stub.World -> Outcome A * Stub.World) (w : World)
  : Outcome A * World :=
  (fst (op (base w)), with_base w (snd (op (base w)))).

Definition settings_error : Exn :=
  PyException "IOError" "No such file or directory" None.

#[global] Instance externals : Externals World := {
  construct cls _ w :=
    if bool_decide (cls ∈ bad_constructors w)
    then (Raise Stub.generation_error, w) else (Ret tt, w);
  has_generate_context _ := true;
  generate_context g w :=
    if bool_decide (gen_class g ∈ interrupted_steps w)
    then (Raise KeyboardInterrupt, w) else (Ret tt, w);
  has_generate_output _ := true;
  generate_output _ _ w := (Ret tt, w);
  new_writer _ _ w := (Ret tt, w);
  clean_output_dir dir := on_base (fun b => (Ret tt, Stub.erase dir b));
  realpath _ p := p;
  path_exists w p := bool_decide (p ∈ Stub.existing (base w));
  files_changed _ _ := on_base Stub.stub_files_changed;
  sleep w :=
    if sleep_interrupted w then (Raise KeyboardInterrupt, w) else (Ret tt, w);
  log_init _ w := (Ret tt, w);
  read_settings _ w :=
    if settings_unreadable w then (Raise settings_error, w)
    else (Ret (settings_file w), w);
  import_attr := Stub.stub_import_attr;
  package_dir := "/pelican";
  _DEFAULT_CONFIG := Stub.default_config }.

(** The tree of [Stub] without faults. *)
Definition sound : World :=
  MkWorld Stub.tree [] [] false false Stub.default_config.

(** The pages generator cannot be constructed. *)
Definition bad_pages : World :=
  MkWorld Stub.tree [PagesGenerator] [] false false Stub.default_config.

(** The user interrupts the context step of the articles generator. *)
Definition interrupted_build : World :=
  MkWorld Stub.tree [] [ArticlesGenerator] false false Stub.default_config.

(** The user interrupts the sleep of the watch loop. *)
Definition interrupted_sleep : World :=
  MkWorld Stub.tree [] [] true false Stub.default_config.

(** The settings file cannot be read. *)
Definition unreadable : World :=
  MkWorld Stub.tree [] [] false true Stub.default_config.

(** The settings file says nothing about [PELICAN_CLASS]. *)
Definition classless : World :=
  MkWorld Stub.tree [] [] false false
    (delete "PELICAN_CLASS" Stub.default_config).

(** A command line for one build of [/a/b] into [/out]. *)
Definition build_once : Args :=
  MkArgs (Some "/a/b") None (Some "/out") None None false None false.

(** The same with [--autoreload]. *)
Definition autoreload : Args :=
  MkArgs (Some "/a/b") None (Some "/out") None None false None true.

End Faulty.

(** The source tree of [Stub.tree_broken] with a change ahead. *)
Definition tree_broken_changed : Stub.World :=
  Stub.MkWorld (Stub.existing Stub.tree) [ArticlesGenerator] [true].

(** A pelican without the setting [PDF_GENERATOR]. *)
Definition pelican_without_pdf : Pelican :=
  MkPelican "/a/b" (delete "PDF_GENERATOR" Stub.default_config)
    (PyStr "/themes/notmyidea") "/out" (PyList ["rst"; "md"]) (PyBool false).

(** The events of [n] passes of the watch loop in which nothing
    changed. *)
Fixpoint idle_passes (n : nat) (pelican : Pelican) : list Event :=
  match n with
  | O => []
  | S n' =>
      [FilesChanged (PyStr (self_path pelican)) (self_markup pelican);
       FilesChanged (self_theme pelican) (PyList [""]);
       Sleep] ++ idle_passes n' pelican
  end.

(** [s.count(c)] *)
Fixpoint occurrences (c : ascii) (s : string) : nat :=
  match s with
  | String d r => (if Ascii.eqb d c then 1 else 0) + occurrences c r
  | EmptyString => 0
  end.

(** ** Proof steps used throughout *)

(** Closed decidable goals, such as membership in a list of keys. *)
Ltac by_decide := apply (bool_decide_unpack _); vm_compute; exact I.

(** Two runs that differ in how their event lists are bracketed. *)
Ltac same_events :=
  repeat (rewrite app_nil_r || rewrite <- app_assoc); reflexivity.

(** Lays a computation of the monad open. *)
Ltac monad_simpl := cbn [outcome final events fst snd app].
Ltac monad_unfold :=
  unfold mbind, M_bind, bind, call, emit, ask, ret, raise; monad_simpl.

(** * Properties *)

(** ** Sample evaluations *)

Example convert_structure_ex1 :
  convert_structure "/%Y/%m/%(category)s" = "{date:%Y}/{date:%m}/{category}".
Proof. reflexivity. Qed.

Example convert_structure_ex2 :
  convert_structure "%(a b)s%%(x)s%_" = "%(a b)s%{x}{date:%_}".
Proof. reflexivity. Qed.

Example legacy_settings_article_url :
  final (_handle_deprecation legacy_settings) !! "ARTICLE_URL"
  = Some (PyStr "{date:%Y}/{date:%m}/{slug}/").
Proof. vm_compute. reflexivity. Qed.

Example legacy_settings_page_save_as :
  final (_handle_deprecation legacy_settings) !! "PAGE_SAVE_AS"
  = Some (PyStr "{date:%Y}/{date:%m}/pages/{slug}.html").
Proof. vm_compute. reflexivity. Qed.

Example parse_markup_ex :
  parse_markup (Some " RST, md ") = Some ["rst"; "md"].
Proof. reflexivity. Qed.

Example build_in_tree :
  events (Stub.build "/a/b" "/a/b/output" true Stub.tree)
  = [CallRun; Construct ArticlesGenerator; Construct PagesGenerator;
     Construct StaticGenerator; GenerateContext ArticlesGenerator;
     GenerateContext PagesGenerator; GenerateContext StaticGenerator;
     CleanOutputDir "/a/b/output"; NewWriter "/a/b/output";
     GenerateOutput ArticlesGenerator; GenerateOutput PagesGenerator;
     GenerateOutput StaticGenerator].
Proof. vm_compute. reflexivity. Qed.

Example build_init :
  outcome (__init__ (Some Stub.default_config) (Some "/a/b/") None
             (Some "/a/b/output") None true Stub.tree)
  = Ret (Stub.pelican_of "/a/b" "/a/b/output" true).
Proof. vm_compute. reflexivity. Qed.

Example rsplit_dot_ex1 :
  rsplit_dot "pelican.Pelican" = Some ("pelican", "Pelican").
Proof. reflexivity. Qed.

Example rsplit_dot_ex2 :
  rsplit_dot "site.build.Custom" = Some ("site.build", "Custom").
Proof. reflexivity. Qed.

Example rsplit_dot_ex3 : rsplit_dot "Pelican" = None.
Proof. reflexivity. Qed.

Example decode_error_ex :
  decode_error 31 (ascii_of_nat 195)
  = UnicodeDecodeError
      ("'ascii' codec can't decode byte 0xc3 in position 31:"
       +:+ " ordinal not in range(128)").
Proof. vm_compute. reflexivity. Qed.

Example no_attribute_ex :
  no_attribute (PyInt 5) "endswith"
  = AttributeError "'int' object has no attribute 'endswith'".
Proof. reflexivity. Qed.

Example content_under_root : content_under "/" "/a/b".
Proof. right. exists "a/b". by split. Qed.

(** ** Substitution *)

Section ReSub.

Variable matcher : string -> option (string * string).
Hypothesis matcher_consumes : forall s repl rest,
  matcher s = Some (repl, rest) -> String.length rest < String.length s.

Lemma re_sub_from_bound n1 : forall n2 s,
  String.length s <= n1 -> String.length s <= n2 ->
  re_sub_from matcher n1 s = re_sub_from matcher n2 s.
Proof.
  induction n1 as [|n1 IH]; intros n2 s H1 H2.
  - destruct s; [|simpl in H1; lia].
    destruct n2; [reflexivity|]. simpl.
    destruct (matcher "") as [[repl rest]|] eqn:E; [|reflexivity].
    apply matcher_consumes in E. simpl in E. lia.
  - destruct n2 as [|n2].
    + destruct s; [|simpl in H2; lia]. simpl.
      destruct (matcher "") as [[repl rest]|] eqn:E; [|reflexivity].
      apply matcher_consumes in E. simpl in E. lia.
    + simpl. destruct (matcher s) as [[repl rest]|] eqn:E.
      * apply matcher_consumes in E. f_equal. apply IH; lia.
      * destruct s as [|c r]; [reflexivity|]. simpl in H1, H2.
        f_equal. apply IH; lia.
Qed.

(** After a match the scan resumes behind it. *)
Lemma re_sub_match s repl rest :
  matcher s = Some (repl, rest) ->
  re_sub matcher s = repl +:+ re_sub matcher rest.
Proof.
  intros E. unfold re_sub. pose proof (matcher_consumes _ _ _ E) as Hlt.
  destruct (String.length s) as [|n] eqn:Hn; [lia|].
  simpl. rewrite E. f_equal. apply re_sub_from_bound; lia.
Qed.

(** Without a match one character is copied. *)
Lemma re_sub_skip c r :
  matcher (String c r) = None ->
  re_sub matcher (String c r) = String c (re_sub matcher r).
Proof. intros E. unfold re_sub. simpl. rewrite E. reflexivity. Qed.

Lemma re_sub_empty : re_sub matcher "" = "".
Proof. reflexivity. Qed.

End ReSub.

Lemma append_assoc (a b c : string) : (a +:+ b) +:+ c = a +:+ (b +:+ c).
Proof. induction a as [|x a IH]; simpl; [reflexivity|]. by rewrite IH. Qed.

Lemma append_empty_r (a : string) : a +:+ "" = a.
Proof. induction a as [|x a IH]; simpl; [reflexivity|]. by rewrite IH. Qed.

Lemma eat_shorter c s r :
  eat c s = Some r -> String.length s = S (String.length r).
Proof.
  destruct s as [|d s]; simpl; [discriminate|].
  destruct (Ascii.eqb d c); [|discriminate]. by intros [= ->].
Qed.

Lemma eat_other c d r : Ascii.eqb d c = false -> eat c (String d r) = None.
Proof. intros H. simpl. by rewrite H. Qed.

Lemma span_word_length s :
  String.length (snd (span_word s)) <= String.length s.
Proof.
  induction s as [|c s IH]; simpl; [lia|].
  destruct (is_word c); simpl; [|lia].
  destruct (span_word s) as [w t]. simpl in *. lia.
Qed.

Lemma match_named_consumes s repl rest :
  match_named s = Some (repl, rest) -> String.length rest < String.length s.
Proof.
  unfold match_named. intros H.
  destruct (eat "%" s) as [r1|] eqn:E1; simpl in H; [|discriminate].
  destruct (eat "(" r1) as [r2|] eqn:E2; simpl in H; [|discriminate].
  pose proof (span_word_length r2) as Hs.
  destruct (span_word r2) as [name r3]. simpl in Hs.
  destruct (String.eqb name ""); [discriminate|].
  destruct (eat ")" r3) as [r4|] eqn:E4; simpl in H; [|discriminate].
  destruct (eat "s" r4) as [r5|] eqn:E5; simpl in H; [|discriminate].
  injection H as _ <-.
  apply eat_shorter in E1, E2, E4, E5. lia.
Qed.

Lemma match_strftime_consumes s repl rest :
  match_strftime s = Some (repl, rest) ->
  String.length rest < String.length s.
Proof.
  unfold match_strftime. intros H.
  destruct (eat "%" s) as [r1|] eqn:E1; simpl in H; [|discriminate].
  destruct r1 as [|c t]; [discriminate|].
  destruct (is_A_to_z c); [|discriminate].
  injection H as _ <-. apply eat_shorter in E1. simpl in E1. lia.
Qed.

(** Neither pattern matches where the text does not start with [%]. *)
Lemma match_named_other c r :
  Ascii.eqb c "%"%char = false -> match_named (String c r) = None.
Proof. intros H. unfold match_named. by rewrite eat_other. Qed.

Lemma match_strftime_other c r :
  Ascii.eqb c "%"%char = false -> match_strftime (String c r) = None.
Proof. intros H. unfold match_strftime. by rewrite eat_other. Qed.

Lemma is_word_not_percent c : is_word c = true -> Ascii.eqb c "%"%char = false.
Proof.
  intros H. destruct (Ascii.eqb_spec c "%"%char) as [->|]; [|reflexivity].
  discriminate H.
Qed.

Lemma is_A_to_z_not_paren c :
  is_A_to_z c = true -> Ascii.eqb c "("%char = false.
Proof.
  intros H. destruct (Ascii.eqb_spec c "("%char) as [->|]; [|reflexivity].
  discriminate H.
Qed.

Lemma span_word_name name rest :
  all_word name = true ->
  span_word (name +:+ String ")" rest) = (name, String ")" rest).
Proof.
  induction name as [|c name IH]; simpl; intros H; [reflexivity|].
  apply andb_true_iff in H as [Hc Hn]. rewrite Hc, (IH Hn). reflexivity.
Qed.

Lemma match_named_token name rest :
  token_ok (Named name) = true ->
  match_named (legacy_token (Named name) +:+ rest)
  = Some (modern_token (Named name), rest).
Proof.
  simpl. intros H. apply andb_true_iff in H as [Hne Hw].
  unfold match_named. simpl.
  rewrite append_assoc. simpl. rewrite (span_word_name _ _ Hw).
  destruct (String.eqb name ""); [discriminate|]. reflexivity.
Qed.

(** Text free of [%] is copied as it is, for both patterns. *)
Lemma re_sub_copy matcher (text rest : string) :
  (forall c r, Ascii.eqb c "%"%char = false -> matcher (String c r) = None) ->
  all_word text = true ->
  re_sub matcher (text +:+ rest) = text +:+ re_sub matcher rest.
Proof.
  intros Hm. induction text as [|c text IH]; simpl; intros H; [reflexivity|].
  apply andb_true_iff in H as [Hc Ht].
  rewrite re_sub_skip by (apply Hm, is_word_not_percent, Hc).
  by rewrite IH.
Qed.

Lemma re_sub_named_tokens tokens :
  forallb token_ok tokens = true ->
  re_sub match_named (legacy tokens) = half tokens.
Proof.
  induction tokens as [|t tokens IH]; simpl; intros H; [reflexivity|].
  apply andb_true_iff in H as [Ht Hr]. specialize (IH Hr).
  destruct t as [c|name|c].
  - simpl in *. rewrite re_sub_skip.
    + by rewrite IH.
    + apply match_named_other. by destruct (Ascii.eqb c "%"%char).
  - rewrite (re_sub_match _ match_named_consumes _ _ _
               (match_named_token name _ Ht)).
    by rewrite IH.
  - simpl in *. rewrite re_sub_skip.
    + rewrite re_sub_skip; [by rewrite IH|].
      apply match_named_other.
      destruct (Ascii.eqb_spec c "%"%char) as [->|]; [discriminate Ht|done].
    + unfold match_named. simpl. rewrite is_A_to_z_not_paren by done.
      reflexivity.
Qed.

Lemma re_sub_strftime_tokens tokens :
  forallb token_ok tokens = true ->
  re_sub match_strftime (half tokens) = modern tokens.
Proof.
  induction tokens as [|t tokens IH]; simpl; intros H; [reflexivity|].
  apply andb_true_iff in H as [Ht Hr]. specialize (IH Hr).
  destruct t as [c|name|c].
  - simpl in *. rewrite re_sub_skip.
    + by rewrite IH.
    + apply match_strftime_other. by destruct (Ascii.eqb c "%"%char).
  - simpl in *. apply andb_true_iff in Ht as [_ Hw].
    rewrite re_sub_skip by (by apply match_strftime_other).
    rewrite append_assoc.
    rewrite (re_sub_copy _ _ _ match_strftime_other Hw).
    simpl. rewrite re_sub_skip by (by apply match_strftime_other).
    rewrite IH. rewrite append_assoc. reflexivity.
  - simpl in *.
    rewrite (re_sub_match _ match_strftime_consumes _
               ("{date:%" +:+ String c "}") (half tokens)).
    + by rewrite IH.
    + unfold match_strftime. simpl. by rewrite Ht.
Qed.

(** Lines 84-90 on a structure given by its tokens. *)
Lemma convert_structure_tokens tokens :
  forallb token_ok tokens = true ->
  convert_structure (legacy tokens) = strip_leading_slash (modern tokens).
Proof.
  intros H. unfold convert_structure.
  by rewrite re_sub_named_tokens, re_sub_strftime_tokens.
Qed.

(** ** The monad *)

Lemma bind_ret_run {S A B} (m : M S A) (k : A -> M S B) s a s1 ev :
  m s = MkRun (Ret a) s1 ev ->
  (m ≫= k) s
  = MkRun (outcome (k a s1)) (final (k a s1)) (ev ++ events (k a s1)).
Proof. intros H. unfold mbind, M_bind, bind. rewrite H. reflexivity. Qed.

Lemma bind_raise_run {S A B} (m : M S A) (k : A -> M S B) s e s1 ev :
  m s = MkRun (Raise e) s1 ev -> (m ≫= k) s = MkRun (Raise e) s1 ev.
Proof. intros H. unfold mbind, M_bind, bind. rewrite H. reflexivity. Qed.

Lemma run_eta {S A} (r : Run S A) :
  r = MkRun (outcome r) (final r) (events r).
Proof. by destruct r. Qed.

Lemma for_each_app {S A} (l1 l2 : list A) (body : A -> M S unit) s :
  for_each (l1 ++ l2) body s = (for_each l1 body ;; for_each l2 body) s.
Proof.
  revert s. induction l1 as [|x l1 IH]; intros s.
  - simpl. unfold mbind, M_bind, bind, ret. simpl.
    by destruct (for_each l2 body s).
  - simpl. unfold mbind, M_bind, bind in *. simpl.
    destruct (body x s) as [[[]|e] s1 ev1]; simpl; [|reflexivity].
    rewrite IH.
    destruct (for_each l1 body s1) as [[[]|e] s2 ev2]; simpl; [|reflexivity].
    by rewrite app_assoc.
Qed.

(** ** Settings migration *)

Lemma getitem_some (s : Settings) k v :
  s !! k = Some v -> getitem k s = MkRun (Ret v) s [].
Proof. intros H. unfold getitem. by rewrite H. Qed.

Lemma warn_setting_some (s : Settings) k v :
  s !! k = Some v ->
  warn_setting k s
  = MkRun (Ret tt) s [Warning (k +:+ " = '" +:+ format_s v +:+ "'")].
Proof.
  intros H. unfold warn_setting.
  rewrite (bind_ret_run _ _ _ _ _ _ (getitem_some _ _ _ H)). reflexivity.
Qed.

Lemma prefix_setting_str structure k (s : Settings) v :
  s !! k = Some (PyStr v) ->
  prefix_setting structure k s
  = MkRun (Ret tt) (<[k := PyStr (os_path_join structure v)]> s)
      [Warning (k +:+ " = '" +:+ os_path_join structure v +:+ "'")].
Proof.
  intros H. unfold prefix_setting, mbind, M_bind, bind.
  rewrite (getitem_some _ _ _ H). simpl.
  rewrite (warn_setting_some _ k (PyStr (os_path_join structure v)))
    by apply lookup_insert_eq.
  reflexivity.
Qed.

(** Whatever its outcome, the body of the loop writes to its own key
    only. *)
Lemma prefix_setting_other structure k (s : Settings) j :
  j ≠ k -> final (prefix_setting structure k s) !! j = s !! j.
Proof.
  intros Hne. unfold prefix_setting, mbind, M_bind, bind, getitem.
  destruct (s !! k) as [v|] eqn:E; simpl; [|reflexivity].
  destruct v; simpl; try reflexivity.
  unfold warn_setting, mbind, M_bind, bind, getitem.
  rewrite lookup_insert_eq. simpl. by rewrite lookup_insert_ne.
Qed.

Lemma for_each_prefix_other structure ks : forall (s : Settings) j,
  j ∉ ks -> final (for_each ks (prefix_setting structure) s) !! j = s !! j.
Proof.
  induction ks as [|k ks IH]; intros s j Hj; [reflexivity|].
  apply not_elem_of_cons in Hj as [Hne Hj].
  simpl. unfold mbind, M_bind, bind.
  pose proof (prefix_setting_other structure k s j Hne) as Hk.
  destruct (prefix_setting structure k s) as [[[]|e] s1 ev1]; simpl in *;
    [|exact Hk].
  by rewrite IH.
Qed.

Lemma for_each_prefix_ok structure ks :
  NoDup ks -> forall s : Settings,
  (forall k, k ∈ ks -> exists v, s !! k = Some (PyStr v)) ->
  outcome (for_each ks (prefix_setting structure) s) = Ret tt /\
  forall k v, k ∈ ks -> s !! k = Some (PyStr v) ->
    final (for_each ks (prefix_setting structure) s) !! k
    = Some (PyStr (os_path_join structure v)).
Proof.
  induction 1 as [|k ks Hk Hnd IH]; intros s Hs.
  - split; [reflexivity|]. intros k v Hin. by apply elem_of_nil in Hin.
  - destruct (Hs k) as [v Hv]; [by left|].
    simpl. unfold mbind, M_bind, bind.
    rewrite (prefix_setting_str structure k s v Hv). simpl.
    destruct (IH (<[k := PyStr (os_path_join structure v)]> s)) as [Ho Hf].
    { intros j Hj. destruct (Hs j) as [u Hu]; [by right|].
      exists u. rewrite lookup_insert_ne; [done|]. by intros ->. }
    split; [exact Ho|].
    intros j u Hj Hu. apply elem_of_cons in Hj as [->|Hj].
    + rewrite for_each_prefix_other by done.
      rewrite lookup_insert_eq. congruence.
    + apply Hf; [done|]. rewrite lookup_insert_ne; [done|]. by intros ->.
Qed.

Lemma permalink_keys_NoDup : NoDup permalink_keys.
Proof. apply (bool_decide_unpack _). vm_compute. exact I. Qed.

Lemma convert_structure_empty : convert_structure "" = "".
Proof. reflexivity. Qed.

Lemma os_path_join_empty v : os_path_join "" v = v.
Proof. unfold os_path_join. by destruct (startswith v "/"). Qed.

Lemma ret_bind {S A B} (a : A) (k : A -> M S B) s : (ret a ≫= k) s = k a s.
Proof. unfold mbind, M_bind, bind. simpl. by destruct (k a s). Qed.

Lemma emit_bind {S B} ev (k : unit -> M S B) s :
  (emit ev ≫= k) s
  = MkRun (outcome (k tt s)) (final (k tt s)) (ev :: events (k tt s)).
Proof. reflexivity. Qed.

Lemma raise_bind {S A B} e (k : A -> M S B) s :
  (raise e ≫= k) s = MkRun (Raise e) s [].
Proof. reflexivity. Qed.

Lemma get_default_bind {B} k d (f : PyVal -> M Settings B) (s : Settings) :
  (get_default k d ≫= f) s = f (default d (s !! k)) s.
Proof. unfold get_default. apply ret_bind. Qed.

Lemma setitem_bind {B} k v (f : unit -> M Settings B) (s : Settings) :
  (setitem k v ≫= f) s = f tt (<[k := v]> s).
Proof.
  unfold mbind, M_bind, bind, setitem. simpl.
  by destruct (f tt (<[k := v]> s)).
Qed.

Lemma getitem_bind {B} k (f : PyVal -> M Settings B) (s : Settings) v :
  s !! k = Some v -> (getitem k ≫= f) s = f v s.
Proof.
  intros H. unfold mbind, M_bind, bind. rewrite (getitem_some _ _ _ H).
  simpl. by destruct (f v s).
Qed.


Lemma clean_urls_run (s : Settings) :
  truthy (default (PyBool false) (s !! "CLEAN_URLS")) = true ->
  deprecated_clean_urls s
  = MkRun (Ret tt)
      (<["PAGE_LANG_URL" := PyStr "pages/{slug}-{lang}/"]>
         (<["PAGE_URL" := PyStr "pages/{slug}/"]>
            (<["ARTICLE_LANG_URL" := PyStr "{slug}-{lang}/"]>
               (<["ARTICLE_URL" := PyStr "{slug}/"]> s))))
      [Warning ("Found deprecated `CLEAN_URLS` in settings. Modifing"
                +:+ " the following settings for the same behaviour.");
       Warning "ARTICLE_URL = '{slug}/'";
       Warning "ARTICLE_LANG_URL = '{slug}-{lang}/'";
       Warning "PAGE_URL = 'pages/{slug}/'";
       Warning "PAGE_LANG_URL = 'pages/{slug}-{lang}/'"].
Proof.
  intros H. unfold deprecated_clean_urls, mbind, M_bind, bind, get_default.
  cbn [ret outcome final events]. rewrite H.
  cbn [warning emit setitem outcome final events for_each clean_urls_keys].
  unfold mbind, M_bind, bind.
  rewrite (warn_setting_some _ "ARTICLE_URL" (PyStr "{slug}/"))
    by (by simplify_map_eq).
  rewrite (warn_setting_some _ "ARTICLE_LANG_URL" (PyStr "{slug}-{lang}/"))
    by (by simplify_map_eq).
  rewrite (warn_setting_some _ "PAGE_URL" (PyStr "pages/{slug}/"))
    by (by simplify_map_eq).
  rewrite (warn_setting_some _ "PAGE_LANG_URL" (PyStr "pages/{slug}-{lang}/"))
    by (by simplify_map_eq).
  reflexivity.
Qed.

Lemma clean_urls_skip (s : Settings) :
  truthy (default (PyBool false) (s !! "CLEAN_URLS")) = false ->
  deprecated_clean_urls s = MkRun (Ret tt) s [].
Proof.
  intros H. unfold deprecated_clean_urls, mbind, M_bind, bind, get_default.
  cbn [ret outcome final events]. by rewrite H.
Qed.

Lemma permalink_skip (s : Settings) :
  truthy (default (PyBool false) (s !! "ARTICLE_PERMALINK_STRUCTURE")) = false ->
  deprecated_permalink_structure s = MkRun (Ret tt) s [].
Proof.
  intros H.
  unfold deprecated_permalink_structure, mbind, M_bind, bind, get_default.
  cbn [ret outcome final events]. by rewrite H.
Qed.

(** With a non-empty structure the loop of lines 92-98 runs, with the
    converted structure. *)
Lemma permalink_run (s : Settings) (st : string) :
  s !! "ARTICLE_PERMALINK_STRUCTURE" = Some (PyStr st) -> st ≠ "" ->
  let loop := for_each permalink_keys (prefix_setting (convert_structure st)) s in
  deprecated_permalink_structure s
  = MkRun (outcome loop) (final loop)
      (Warning ("Found deprecated `ARTICLE_PERMALINK_STRUCTURE` in"
                +:+ " settings.  Modifing the following settings for"
                +:+ " the same behaviour.") :: events loop).
Proof.
  intros H Hne loop. unfold deprecated_permalink_structure.
  rewrite get_default_bind, H. cbn [default id truthy].
  destruct (String.eqb_spec st "") as [->|_]; [done|]. cbn [negb].
  unfold warning. rewrite emit_bind.
  rewrite (getitem_bind _ _ _ _ H). cbn [expect_string].
  rewrite ret_bind. reflexivity.
Qed.

(** C5: when the deprecated [CLEAN_URLS] flag is set, lines 63-74 set
    the four URL templates to their fixed values, whatever they were,
    and leave every other key as it was; when no permalink structure is
    configured this is all that the migration does. *)
Theorem clean_urls_migration (s : Settings) :
  truthy (default (PyBool false) (s !! "CLEAN_URLS")) = true ->
  let r := deprecated_clean_urls s in
  outcome r = Ret tt /\
  final r !! "ARTICLE_URL" = Some (PyStr "{slug}/") /\
  final r !! "ARTICLE_LANG_URL" = Some (PyStr "{slug}-{lang}/") /\
  final r !! "PAGE_URL" = Some (PyStr "pages/{slug}/") /\
  final r !! "PAGE_LANG_URL" = Some (PyStr "pages/{slug}-{lang}/") /\
  (forall k, k ∉ clean_urls_keys -> final r !! k = s !! k) /\
  (truthy (default (PyBool false) (s !! "ARTICLE_PERMALINK_STRUCTURE"))
   = false ->
   _handle_deprecation s = r).
Proof.
  intros H r. subst r. rewrite (clean_urls_run s H). cbn [outcome final].
  repeat split; try (by simplify_map_eq).
  - intros k Hk. unfold clean_urls_keys in Hk.
    rewrite !not_elem_of_cons in Hk. destruct Hk as (?&?&?&?&_).
    by rewrite !lookup_insert_ne.
  - intros Hp. unfold _handle_deprecation.
    rewrite (bind_ret_run _ _ _ _ _ _ (clean_urls_run s H)).
    rewrite permalink_skip; [by rewrite app_nil_r|].
    by rewrite !lookup_insert_ne.
Qed.

Lemma clean_urls_migration_witness :
  truthy (default (PyBool false) (legacy_settings !! "CLEAN_URLS")) = true /\
  final (deprecated_clean_urls legacy_settings) !! "PAGE_URL"
  = Some (PyStr "pages/{slug}/").
Proof.
  split; [vm_compute; reflexivity|].
  apply (clean_urls_migration legacy_settings). vm_compute. reflexivity.
Defined.

(** [os.path.join] puts the structure in front of a relative value as
    one more path segment. *)
Lemma os_path_join_relative a b :
  startswith b "/" = false ->
  os_path_join a b
  = (if String.eqb a "" || endswith_slash a then a else a +:+ "/") +:+ b.
Proof.
  intros H. unfold os_path_join. rewrite H.
  destruct (String.eqb a "" || endswith_slash a); [reflexivity|].
  by rewrite append_assoc.
Qed.

Lemma legacy_empty tokens :
  forallb token_ok tokens = true -> legacy tokens = "" -> tokens = [].
Proof.
  destruct tokens as [|t tokens]; [done|]. simpl. intros H E.
  apply andb_true_iff in H as [Ht _].
  destruct t as [c|name|c]; simpl in E; discriminate E.
Qed.

(** C3, as the code has it: when the deprecated
    [ARTICLE_PERMALINK_STRUCTURE] holds a structure made of literal
    characters, [%(name)s] tokens and [%X] tokens, lines 76-98 turn
    every [%(name)s] into [{name}] and every [%X] into [{date:%X}],
    drop one leading separator, and join the result in front of each of
    the eight settings of [permalink_keys] (four URL keys and four
    save-as keys); every other key is left as it was. *)
Theorem permalink_structure_migration (s : Settings) (tokens : list Token) :
  forallb token_ok tokens = true ->
  s !! "ARTICLE_PERMALINK_STRUCTURE" = Some (PyStr (legacy tokens)) ->
  (forall k, k ∈ permalink_keys -> exists v, s !! k = Some (PyStr v)) ->
  let structure := strip_leading_slash (modern tokens) in
  let r := deprecated_permalink_structure s in
  outcome r = Ret tt /\
  (forall k v, k ∈ permalink_keys -> s !! k = Some (PyStr v) ->
     final r !! k = Some (PyStr (os_path_join structure v))) /\
  (forall k, k ∉ permalink_keys -> final r !! k = s !! k).
Proof.
  intros Hok Hs Hkeys structure r. subst structure r.
  destruct (String.eqb_spec (legacy tokens) "") as [E|Hne].
  - rewrite (legacy_empty tokens Hok E) in *. simpl in Hs.
    rewrite permalink_skip by (by rewrite Hs).
    cbn [outcome final modern strip_leading_slash eat].
    split; [reflexivity|]. split; [|done].
    intros k v _ Hv. by rewrite os_path_join_empty.
  - rewrite (permalink_run s _ Hs Hne). cbn [outcome final].
    rewrite (convert_structure_tokens tokens Hok).
    destruct (for_each_prefix_ok (strip_leading_slash (modern tokens))
                permalink_keys permalink_keys_NoDup s Hkeys) as [Ho Hf].
    split; [exact Ho|]. split; [exact Hf|].
    intros k Hk. by apply for_each_prefix_other.
Qed.

Lemma permalink_keys_present (s : Settings) :
  Forall (fun k => match s !! k with Some (PyStr _) => True | _ => False end)
         permalink_keys ->
  forall k, k ∈ permalink_keys -> exists v, s !! k = Some (PyStr v).
Proof.
  intros H k Hk. rewrite Forall_forall in H. specialize (H k Hk).
  destruct (s !! k) as [[]|]; try done. by eexists.
Qed.

Lemma dated_settings_keys :
  forall k, k ∈ permalink_keys -> exists v, dated_settings !! k = Some (PyStr v).
Proof.
  apply permalink_keys_present. unfold permalink_keys.
  repeat (constructor; [vm_compute; exact I|]). constructor.
Qed.

Lemma permalink_structure_migration_witness :
  final (deprecated_permalink_structure dated_settings) !! "PAGE_LANG_SAVE_AS"
  = Some (PyStr "{date:%Y}/{date:%m}/{category}/pages/{slug}-{lang}.html").
Proof.
  apply (proj1 (proj2 (permalink_structure_migration dated_settings
                         dated_tokens eq_refl eq_refl dated_settings_keys))
           "PAGE_LANG_SAVE_AS" "pages/{slug}-{lang}.html").
  - apply (bool_decide_unpack _). vm_compute. exact I.
  - vm_compute. reflexivity.
Defined.

(** C3 as the specification words it fails: there is no set of six keys
    outside of which the migration of [dated_settings] leaves every
    setting as it was.  All eight keys of [permalink_keys] change. *)
Lemma permalink_six_keys_counterexample :
  ~ exists six : list string,
      length six = 6 /\
      forall k, k ∉ six ->
        final (deprecated_permalink_structure dated_settings) !! k
        = dated_settings !! k.
Proof.
  intros (six & Hlen & Hsix).
  assert (Hin : forall k, k ∈ permalink_keys -> k ∈ six).
  { intros k Hk. destruct (decide (k ∈ six)) as [|Hn]; [done|].
    specialize (Hsix k Hn). exfalso. revert Hsix.
    unfold permalink_keys in Hk.
    repeat (apply elem_of_cons in Hk as [->|Hk];
            [vm_compute; discriminate|]).
    by apply elem_of_nil in Hk. }
  pose proof (submseteq_length _ _
                (NoDup_submseteq _ _ permalink_keys_NoDup Hin)) as Hle.
  rewrite Hlen in Hle. simpl in Hle. lia.
Qed.

Lemma permalink_keys_split : permalink_keys = clean_urls_keys ++ save_as_keys.
Proof. reflexivity. Qed.

(** C10: with both deprecated settings present, the clean-URL templates
    are written first and the converted structure is then joined in
    front of them, so each of the four URL keys ends up as the structure
    path-joined with its clean-URL template; the migration raises
    nothing when the four save-as settings hold strings. *)
Theorem clean_urls_then_permalink (s : Settings) (st : string) :
  truthy (default (PyBool false) (s !! "CLEAN_URLS")) = true ->
  s !! "ARTICLE_PERMALINK_STRUCTURE" = Some (PyStr st) ->
  let structure := convert_structure st in
  let segment :=
    if String.eqb structure "" || endswith_slash structure then structure
    else structure +:+ "/" in
  let r := _handle_deprecation s in
  final r !! "ARTICLE_URL" = Some (PyStr (os_path_join structure "{slug}/")) /\
  final r !! "ARTICLE_LANG_URL"
  = Some (PyStr (os_path_join structure "{slug}-{lang}/")) /\
  final r !! "PAGE_URL" = Some (PyStr (os_path_join structure "pages/{slug}/")) /\
  final r !! "PAGE_LANG_URL"
  = Some (PyStr (os_path_join structure "pages/{slug}-{lang}/")) /\
  os_path_join structure "{slug}/" = segment +:+ "{slug}/" /\
  ((forall k, k ∈ save_as_keys -> exists v, s !! k = Some (PyStr v)) ->
   outcome r = Ret tt).
Proof.
  intros Hc Hs structure segment r. subst r.
  set (s1 := <["PAGE_LANG_URL" := PyStr "pages/{slug}-{lang}/"]>
               (<["PAGE_URL" := PyStr "pages/{slug}/"]>
                  (<["ARTICLE_LANG_URL" := PyStr "{slug}-{lang}/"]>
                     (<["ARTICLE_URL" := PyStr "{slug}/"]> s)))).
  assert (Hs1 : s1 !! "ARTICLE_PERMALINK_STRUCTURE" = Some (PyStr st)).
  { subst s1. by rewrite !lookup_insert_ne. }
  assert (Hrun : final (_handle_deprecation s)
                 = final (deprecated_permalink_structure s1)
                 /\ outcome (_handle_deprecation s)
                 = outcome (deprecated_permalink_structure s1)).
  { unfold _handle_deprecation.
    by rewrite (bind_ret_run _ _ _ _ _ _ (clean_urls_run s Hc)). }
  destruct Hrun as [-> ->].
  assert (Hseg : os_path_join structure "{slug}/" = segment +:+ "{slug}/")
    by (by apply os_path_join_relative).
  destruct (String.eqb_spec st "") as [->|Hne].
  - rewrite permalink_skip by (by rewrite Hs1). cbn [final outcome].
    subst structure s1. rewrite convert_structure_empty, !os_path_join_empty.
    repeat split; by simplify_map_eq.
  - rewrite (permalink_run s1 st Hs1 Hne). cbn [final outcome].
    fold structure. rewrite permalink_keys_split, for_each_app.
    destruct (for_each_prefix_ok structure clean_urls_keys) with (s := s1)
      as [Ho Hf].
    { by_decide. }
    { intros k Hk. unfold clean_urls_keys in Hk. subst s1.
      repeat (apply elem_of_cons in Hk as [->|Hk];
              [eexists; by simplify_map_eq|]).
      by apply elem_of_nil in Hk. }
    rewrite (bind_ret_run _ _ _ _ _ _
               (eq_trans (run_eta _) (f_equal3 MkRun Ho eq_refl eq_refl))).
    cbn [final outcome].
    assert (Hurl : forall k v, k ∈ clean_urls_keys -> s1 !! k = Some (PyStr v) ->
              final (for_each save_as_keys (prefix_setting structure)
                       (final (for_each clean_urls_keys
                                 (prefix_setting structure) s1))) !! k
              = Some (PyStr (os_path_join structure v))).
    { intros k v Hk Hv. rewrite for_each_prefix_other; [by apply Hf|].
      unfold clean_urls_keys in Hk. unfold save_as_keys.
      repeat (apply elem_of_cons in Hk as [->|Hk]; [by_decide|]).
      by apply elem_of_nil in Hk. }
    repeat split.
    + apply Hurl; [by_decide|]. subst s1. by simplify_map_eq.
    + apply Hurl; [by_decide|]. subst s1. by simplify_map_eq.
    + apply Hurl; [by_decide|]. subst s1. by simplify_map_eq.
    + apply Hurl; [by_decide|]. subst s1. by simplify_map_eq.
    + exact Hseg.
    + intros Hsave.
      apply (for_each_prefix_ok structure save_as_keys).
      { by_decide. }
      intros k Hk. destruct (Hsave k Hk) as [v Hv]. exists v.
      rewrite for_each_prefix_other.
      * subst s1. unfold save_as_keys in Hk.
        repeat (apply elem_of_cons in Hk as [->|Hk];
                [by rewrite !lookup_insert_ne|]).
        by apply elem_of_nil in Hk.
      * unfold save_as_keys in Hk. unfold clean_urls_keys.
        repeat (apply elem_of_cons in Hk as [->|Hk]; [by_decide|]).
        by apply elem_of_nil in Hk.
Qed.

Lemma clean_urls_then_permalink_witness :
  final (_handle_deprecation legacy_settings) !! "ARTICLE_URL"
  = Some (PyStr (os_path_join (convert_structure "/%Y/%m/") "{slug}/")) /\
  os_path_join (convert_structure "/%Y/%m/") "{slug}/"
  = "{date:%Y}/{date:%m}/{slug}/".
Proof.
  split; [|reflexivity].
  apply (clean_urls_then_permalink legacy_settings "/%Y/%m/");
    vm_compute; reflexivity.
Defined.

(** ** The build cycle *)

Section Build.

Context {World : Type} `{Ext : Externals World}.

Lemma bind_run {A B} (m : M World A) (k : A -> M World B) w :
  (m ≫= k) w
  = match outcome (m w) with
    | Ret a =>
        MkRun (outcome (k a (final (m w)))) (final (k a (final (m w))))
          (events (m w) ++ events (k a (final (m w))))
    | Raise e => MkRun (Raise e) (final (m w)) (events (m w))
    end.
Proof. reflexivity. Qed.

Lemma bind_assoc {A B C} (m : M World A) (f : A -> M World B)
    (g : B -> M World C) w :
  ((m ≫= f) ≫= g) w = (m ≫= fun a => f a ≫= g) w.
Proof.
  rewrite !bind_run. destruct (m w) as [[a|e] w1 ev1]; cbn; [|reflexivity].
  rewrite !bind_run. destruct (f a w1) as [[b|e] w2 ev2]; cbn; [|reflexivity].
  by rewrite app_assoc.
Qed.


(** Two computations that agree on every continuation value behave the
    same after the same first part. *)
Lemma bind_ext {A B} (m : M World A) (f g : A -> M World B) w :
  (forall a w', f a w' = g a w') -> (m ≫= f) w = (m ≫= g) w.
Proof. intros H. rewrite !bind_run. destruct (outcome (m w)); by rewrite ?H. Qed.

(** [run] is [prepare], then [finish]. *)
Lemma run_stages (self : Pelican) (w : World) :
  run self w = (prepare self ≫= finish self) w.
Proof.
  unfold run, prepare, setup, finish, write_output, generator_args.
  unfold mbind, M_bind, bind. cbn [emit ret outcome final events].
  destruct (get_generator_classes self w) as [[classes|e] w1 ev1];
    cbn [outcome final events]; [|reflexivity].
  destruct (construct_all _ classes w1) as [[generators|e] w2 ev2];
    cbn [outcome final events]; [|reflexivity].
  destruct (context_phase generators w2) as [[[]|e] w3 ev3];
    cbn [outcome final events]; [|same_events].
  destruct (cleanup_decision self w3) as [[[]|e] w4 ev4];
    cbn [outcome final events]; [|same_events].
  destruct (get_writer self w4) as [[writer|e] w5 ev5];
    cbn [outcome final events]; same_events.
Qed.

(** *** The events of each stage *)

Lemma get_generator_classes_events self (w : World) :
  events (get_generator_classes self w) = []
  /\ final (get_generator_classes self w) = w.
Proof.
  unfold get_generator_classes, item. rewrite bind_run.
  by destruct (self_settings self !! "PDF_GENERATOR").
Qed.

Lemma construct_all_spec args classes : forall w : World,
  (exists n, events (construct_all args classes w)
             = map Construct (take n classes)) /\
  (forall generators,
     outcome (construct_all args classes w) = Ret generators ->
     generators = map (fun cls => MkGenerator cls args) classes /\
     events (construct_all args classes w) = map Construct classes).
Proof.
  induction classes as [|cls classes IH]; intros w.
  - split; [by exists 0|]. by intros generators [= <-].
  - cbn [construct_all]. monad_unfold.
    destruct (construct cls args w) as [[[]|e] w1]; monad_simpl.
    + destruct (IH w1) as [[n Hn] Hok].
      destruct (construct_all args classes w1) as [[gens|e] w2 ev2];
        monad_simpl; cbn [outcome events] in *.
      * destruct (Hok gens eq_refl) as [-> ->]. rewrite app_nil_r. split.
        -- exists (S (length classes)). cbn [take map].
           by rewrite take_ge.
        -- by intros generators [= <-].
      * split; [|done]. exists (S n). by rewrite Hn.
    + split; [|done]. by exists 1.
Qed.

Lemma context_phase_cons p generators (w : World) :
  context_phase (p :: generators) w
  = ((if has_generate_context (gen_class p) then
        emit (GenerateContext (gen_class p));; call (generate_context p)
      else ret tt);;
     context_phase generators) w.
Proof. reflexivity. Qed.

Lemma output_phase_cons p generators writer (w : World) :
  output_phase (p :: generators) writer w
  = ((if has_generate_output (gen_class p) then
        emit (GenerateOutput (gen_class p));; call (generate_output p writer)
      else ret tt);;
     output_phase generators writer) w.
Proof. reflexivity. Qed.

(** The context phase calls the members of the pipeline that have the
    capability, in the order of the pipeline, until one raises. *)
Lemma context_phase_spec generators : forall w : World,
  let members := List.filter has_generate_context (map gen_class generators) in
  (exists n, events (context_phase generators w)
             = map GenerateContext (take n members)) /\
  (outcome (context_phase generators w) = Ret tt ->
   events (context_phase generators w) = map GenerateContext members).
Proof.
  induction generators as [|p generators IH]; intros w members.
  - split; [by exists 0|done].
  - subst members. rewrite context_phase_cons, bind_run.
    cbn [map List.filter]. destruct (has_generate_context (gen_class p)).
    + rewrite bind_run. cbn [emit outcome final events]. unfold call.
      destruct (generate_context p w) as [[[]|e] w1]; monad_simpl.
      * destruct (IH w1) as [[n Hn] Hok]. split.
        -- exists (S n). by rewrite Hn.
        -- intros Ho. by rewrite Hok.
      * split; [|done]. by exists 1.
    + cbn [ret outcome final events app].
      destruct (IH w) as [[n Hn] Hok]. split; [by exists n|done].
Qed.

Lemma output_phase_spec generators writer : forall w : World,
  exists n, events (output_phase generators writer w)
            = map GenerateOutput
                (take n (List.filter has_generate_output
                           (map gen_class generators))).
Proof.
  induction generators as [|p generators IH]; intros w.
  - by exists 0.
  - rewrite output_phase_cons, bind_run.
    cbn [map List.filter]. destruct (has_generate_output (gen_class p)).
    + rewrite bind_run. cbn [emit outcome final events]. unfold call.
      destruct (generate_output p writer w) as [[[]|e] w1]; monad_simpl.
      * destruct (IH w1) as [n Hn]. exists (S n). by rewrite Hn.
      * by exists 1.
    + cbn [ret outcome final events app].
      destruct (IH w) as [n Hn]. by exists n.
Qed.

(** What the cleanup decision does, in full. *)
Lemma cleanup_decision_spec self (w : World) :
  cleanup_decision self w
  = if truthy (self_delete_outputdir self)
       && negb (String.prefix (self_output_path self)
                  (realpath w (self_path self)))
    then MkRun (fst (clean_output_dir (self_output_path self) w))
               (snd (clean_output_dir (self_output_path self) w))
               [CleanOutputDir (self_output_path self)]
    else MkRun (Ret tt) w [].
Proof.
  unfold cleanup_decision. destruct (truthy (self_delete_outputdir self));
    [|done].
  rewrite bind_run. cbn [ask ret outcome final events andb]. unfold startswith.
  destruct (String.prefix _ _); cbn [negb]; [done|].
  rewrite bind_run. cbn [emit outcome final events]. unfold call.
  by destruct (clean_output_dir _ w) as [[] ?].
Qed.

Lemma get_writer_events self (w : World) :
  events (get_writer self w) = [NewWriter (self_output_path self)].
Proof.
  unfold get_writer. rewrite !bind_run. cbn. unfold call.
  by destruct (new_writer _ _ w) as [[[]|e] w1].
Qed.

Lemma setup_events self (w : World) :
  exists classes, events (setup self w) = CallRun :: map Construct classes.
Proof.
  unfold setup. rewrite bind_run. cbn [emit outcome final events].
  rewrite bind_run. destruct (get_generator_classes_events self w) as [He Hw].
  destruct (get_generator_classes self w) as [[classes|e] w1 ev1];
    cbn in *; subst.
  - destruct (construct_all_spec (generator_args self) classes w)
      as [[n Hn] _].
    exists (take n classes). by rewrite Hn.
  - by exists [].
Qed.

Lemma Forall_map_events {A} (f : A -> Event) (P : Event -> Prop) l :
  (forall a, P (f a)) -> Forall P (map f l).
Proof. intros H. induction l; constructor; auto. Qed.

(** The events of [prepare] are the entry into [run], constructions and
    context steps; when it returns, the context steps are those of all
    capable members of the pipeline, in its order. *)
Lemma prepare_events self (w : World) :
  exists classes steps,
    events (prepare self w)
    = CallRun :: map Construct classes ++ map GenerateContext steps /\
    (forall generators, outcome (prepare self w) = Ret generators ->
       outcome (setup self w) = Ret generators /\
       steps = List.filter has_generate_context (map gen_class generators)).
Proof.
  unfold prepare. rewrite bind_run.
  destruct (setup_events self w) as [classes Hc].
  destruct (setup self w) as [[generators|e] w1 ev1]; cbn in *; subst.
  - rewrite bind_run.
    destruct (context_phase_spec generators w1) as [[n Hn] Hok].
    destruct (context_phase generators w1) as [[[]|e] w2 ev2]; cbn in *.
    + exists classes, (List.filter has_generate_context
                         (map gen_class generators)).
      rewrite (Hok eq_refl), app_nil_r. split; [done|].
      by intros ? [= <-].
    + exists classes, (take n (List.filter has_generate_context
                                 (map gen_class generators))).
      rewrite Hn. split; [done|]. intros ? [=].
  - exists classes, []. rewrite app_nil_r. split; [done|]. intros ? [=].
Qed.

Lemma finish_events self generators (w : World) :
  Forall (fun ev => after_context ev = true)
         (events (finish self generators w)).
Proof.
  unfold finish, write_output. rewrite bind_run, cleanup_decision_spec.
  assert (Hw : forall w', Forall (fun ev => after_context ev = true)
            (events ((get_writer self ≫= output_phase generators) w'))).
  { intros w'. rewrite bind_run. pose proof (get_writer_events self w') as Hg.
    destruct (get_writer self w') as [[writer|e] w1 ev1]; cbn in *; subst.
    - constructor; [done|].
      destruct (output_phase_spec generators writer w1) as [n ->].
      by apply Forall_map_events.
    - by constructor. }
  destruct (_ && _).
  - destruct (clean_output_dir _ w) as [[[]|e] w1]; cbn.
    + constructor; [done|]. apply Hw.
    + by constructor.
  - cbn. apply Hw.
Qed.


Lemma filter_app_events (P : Event -> bool) l1 l2 :
  List.filter P (l1 ++ l2) = List.filter P l1 ++ List.filter P l2.
Proof. induction l1 as [|x l1 IH]; cbn; [done|]. destruct (P x); cbn; by rewrite IH. Qed.

Lemma filter_none (P : Event -> bool) l :
  Forall (fun e => P e = false) l -> List.filter P l = [].
Proof. induction 1 as [|x l Hx _ IH]; cbn; [done|]. by rewrite Hx. Qed.


Lemma prepare_not_late self (w : World) :
  Forall (fun ev => after_context ev = false) (events (prepare self w)).
Proof.
  destruct (prepare_events self w) as (classes & steps & -> & _).
  constructor; [done|]. apply Forall_app. split; by apply Forall_map_events.
Qed.

(** The events of a whole [run]: those of [prepare], then those of
    [finish] when [prepare] returns. *)
Lemma run_events self (w : World) :
  events (run self w)
  = events (prepare self w)
    ++ match outcome (prepare self w) with
       | Ret generators => events (finish self generators (final (prepare self w)))
       | Raise _ => []
       end.
Proof.
  rewrite run_stages, bind_run.
  destruct (outcome (prepare self w)); cbn [events]; by rewrite ?app_nil_r.
Qed.



Lemma prefix_append (a b : string) : String.prefix a (a +:+ b) = true.
Proof.
  induction a as [|c a IH]; cbn; [by destruct b|].
  by destruct (ascii_dec c c).
Qed.

Lemma content_under_prefix out content :
  content_under out content -> String.prefix out content = true.
Proof.
  intros [->|(rest & Hrel & ->)].
  - rewrite <- (append_empty_r out) at 2. apply prefix_append.
  - unfold os_path_join. rewrite Hrel.
    destruct (String.eqb out "" || endswith_slash out); apply prefix_append.
Qed.

Lemma write_output_events generators self (w : World) :
  exists n, events (write_output generators self w)
            = NewWriter (self_output_path self)
              :: map GenerateOutput
                   (take n (List.filter has_generate_output
                              (map gen_class generators))).
Proof.
  unfold write_output. rewrite bind_run.
  pose proof (get_writer_events self w) as Hg.
  destruct (get_writer self w) as [[writer|e] w1 ev1]; cbn in *; subst.
  - destruct (output_phase_spec generators writer w1) as [n ->].
    by exists n.
  - by exists 0.
Qed.

Lemma write_output_no_cleanup generators self (w : World) :
  Forall (fun ev => is_cleanup ev = false)
         (events (write_output generators self w)).
Proof.
  destruct (write_output_events generators self w) as [n ->].
  constructor; [done|]. by apply Forall_map_events.
Qed.

Lemma prepare_no_cleanup self (w : World) :
  Forall (fun ev => is_cleanup ev = false) (events (prepare self w)).
Proof.
  eapply Forall_impl; [apply prepare_not_late|]. by intros [].
Qed.

(** A cleanup that is skipped leaves [finish] with the writer and the
    output phase. *)
Lemma finish_skip self generators (w : World) :
  cleanup_decision self w = MkRun (Ret tt) w [] ->
  finish self generators w = write_output generators self w.
Proof.
  intros H. unfold finish. rewrite bind_run, H. cbn.
  by destruct (write_output generators self w).
Qed.

Lemma run_skip self (w : World) :
  (forall generators, outcome (prepare self w) = Ret generators ->
     cleanup_decision self (final (prepare self w))
     = MkRun (Ret tt) (final (prepare self w)) []) ->
  run self w
  = (prepare self ≫= fun generators => write_output generators self) w.
Proof.
  intros H. rewrite run_stages, !bind_run.
  destruct (outcome (prepare self w)) as [generators|e]; [|done].
  by rewrite (finish_skip _ _ _ (H _ eq_refl)).
Qed.

(** What [run] is once the context phase has returned: the cleanup
    decision, then the writer and the output phase. *)
Lemma run_after_prepare self (w : World) generators :
  outcome (prepare self w) = Ret generators ->
  run self w
  = let r := finish self generators (final (prepare self w)) in
    MkRun (outcome r) (final r) (events (prepare self w) ++ events r).
Proof. intros H. by rewrite run_stages, bind_run, H. Qed.

(** [finish] when the output directory is cleaned. *)
Lemma finish_clean self generators (w : World) :
  truthy (self_delete_outputdir self) = true ->
  String.prefix (self_output_path self) (realpath w (self_path self)) = false ->
  finish self generators w
  = match fst (clean_output_dir (self_output_path self) w) with
    | Ret _ =>
        let r := write_output generators self
                   (snd (clean_output_dir (self_output_path self) w)) in
        MkRun (outcome r) (final r)
          (CleanOutputDir (self_output_path self) :: events r)
    | Raise e =>
        MkRun (Raise e) (snd (clean_output_dir (self_output_path self) w))
          [CleanOutputDir (self_output_path self)]
    end.
Proof.
  intros Hdel Hpre. unfold finish. rewrite bind_run, cleanup_decision_spec.
  rewrite Hdel, Hpre. cbn [andb negb outcome final events].
  by destruct (clean_output_dir (self_output_path self) w).1.
Qed.

(** C1, as the code has it: in a [run] with the delete flag set whose
    context phase has returned, [clean_output_dir] is called on the
    output path exactly when the canonical output path is not a prefix
    of the canonical content path.  When it is called, the writer and
    the output phase go on from the world it leaves, and its error, if
    it raises, is the error of [run]; when the output path is a prefix,
    the cleanup is skipped without an error and [run] goes on with the
    writer and the output phase in the world the context phase left. *)
Theorem cleanup_iff_output_not_prefix (self : Pelican) (w : World)
    (generators : list Generator) :
  truthy (self_delete_outputdir self) = true ->
  outcome (prepare self w) = Ret generators ->
  let w1 := final (prepare self w) in
  let out := self_output_path self in
  let content := realpath w1 (self_path self) in
  let cleaned := clean_output_dir out w1 in
  (CleanOutputDir out ∈ events (run self w)
   <-> String.prefix out content = false) /\
  (String.prefix out content = false ->
   run self w
   = match fst cleaned with
     | Ret _ =>
         let r := write_output generators self (snd cleaned) in
         MkRun (outcome r) (final r)
           (events (prepare self w) ++ CleanOutputDir out :: events r)
     | Raise e =>
         MkRun (Raise e) (snd cleaned)
           (events (prepare self w) ++ [CleanOutputDir out])
     end) /\
  (String.prefix out content = true ->
   let r := write_output generators self w1 in
   run self w
   = MkRun (outcome r) (final r) (events (prepare self w) ++ events r)).
Proof.
  intros Hdel Hprep w1 out content cleaned.
  pose proof (run_after_prepare self w generators Hprep) as Hrun.
  cbv zeta in Hrun. fold w1 in Hrun.
  destruct (String.prefix out content) eqn:Hpre.
  - assert (Hskip : finish self generators w1 = write_output generators self w1).
    { apply finish_skip. rewrite cleanup_decision_spec.
      fold out content. rewrite Hpre. by rewrite andb_false_r. }
    rewrite Hskip in Hrun.
    split; [|split; [done|by intros _]].
    split; [|done]. intros Hin. exfalso.
    rewrite Hrun in Hin. cbn [events] in Hin.
    apply elem_of_app in Hin as [Hin|Hin].
    + pose proof (prepare_no_cleanup self w) as Hf.
      rewrite Forall_forall in Hf. by specialize (Hf _ Hin).
    + pose proof (write_output_no_cleanup generators self w1) as Hf.
      rewrite Forall_forall in Hf. by specialize (Hf _ Hin).
  - rewrite (finish_clean self generators w1 Hdel Hpre) in Hrun.
    fold out cleaned in Hrun.
    assert (Heq : run self w
             = match fst cleaned with
               | Ret _ =>
                   let r := write_output generators self (snd cleaned) in
                   MkRun (outcome r) (final r)
                     (events (prepare self w) ++ CleanOutputDir out :: events r)
               | Raise e =>
                   MkRun (Raise e) (snd cleaned)
                     (events (prepare self w) ++ [CleanOutputDir out])
               end).
    { rewrite Hrun. by destruct (fst cleaned). }
    split; [|split; [by intros _|done]].
    split; [done|]. intros _. rewrite Heq.
    destruct (fst cleaned); cbn [events]; apply elem_of_app; right; by left.
Qed.

(** C2, as the code has it: when the canonical content path is the
    output path or lies below it, [run] never calls [clean_output_dir],
    whatever the delete flag says, and is the run without the cleanup
    step. *)
Theorem no_cleanup_when_content_under_output (self : Pelican) (w : World) :
  content_under (self_output_path self)
    (realpath (final (prepare self w)) (self_path self)) ->
  Forall (fun ev => is_cleanup ev = false) (events (run self w)) /\
  run self w
  = (prepare self ≫= fun generators => write_output generators self) w.
Proof.
  intros Hunder. apply content_under_prefix in Hunder.
  assert (Hrun : run self w
           = (prepare self ≫= fun generators => write_output generators self) w).
  { apply run_skip. intros g _. rewrite cleanup_decision_spec, Hunder.
    by rewrite andb_false_r. }
  split; [|done]. rewrite Hrun, bind_run.
  destruct (outcome (prepare self w)) as [generators|e]; cbn [events].
  - apply Forall_app. split;
      [apply prepare_no_cleanup|apply write_output_no_cleanup].
  - apply prepare_no_cleanup.
Qed.

Lemma get_generator_classes_some self (w : World) v :
  self_settings self !! "PDF_GENERATOR" = Some v ->
  get_generator_classes self w
  = MkRun (Ret (if truthy v
                then [ArticlesGenerator; PagesGenerator; StaticGenerator;
                      PdfGenerator]
                else [ArticlesGenerator; PagesGenerator; StaticGenerator]))
      w [].
Proof.
  intros H. unfold get_generator_classes, item. rewrite H, bind_run.
  cbn. by destruct (truthy v).
Qed.

(** C6: the pipeline is the article, page and static generators, in
    this order, when [PDF_GENERATOR] is set to a false value (three
    members), and these three followed by the PDF generator when it is
    set to a true value (four members); the generators [run] constructs
    are of these classes, in this order. *)
Theorem pipeline_members (self : Pelican) (w : World) (v : PyVal) :
  self_settings self !! "PDF_GENERATOR" = Some v ->
  let classes :=
    if truthy v
    then [ArticlesGenerator; PagesGenerator; StaticGenerator; PdfGenerator]
    else [ArticlesGenerator; PagesGenerator; StaticGenerator] in
  get_generator_classes self w = MkRun (Ret classes) w [] /\
  length classes = (if truthy v then 4 else 3) /\
  (forall generators, outcome (setup self w) = Ret generators ->
     map gen_class generators = classes).
Proof.
  intros H classes. pose proof (get_generator_classes_some self w v H) as Hg.
  fold classes in Hg. split; [exact Hg|]. split.
  - subst classes. by destruct (truthy v).
  - intros generators Hs. unfold setup in Hs.
    rewrite bind_run in Hs. cbn [emit outcome final events] in Hs.
    rewrite bind_run, Hg in Hs. cbn [outcome final events] in Hs.
    destruct (construct_all_spec (generator_args self) classes w) as [_ Hok].
    destruct (Hok generators Hs) as [-> _].
    rewrite map_map. cbn. apply map_id.
Qed.

End Build.

(** ** Construction *)

(** The migration only logs warnings. *)
Lemma only_warnings_bind {S A B} (m : M S A) (k : A -> M S B) :
  only_warnings m -> (forall a, only_warnings (k a)) ->
  only_warnings (m ≫= k).
Proof.
  intros Hm Hk s. unfold mbind, M_bind, bind. specialize (Hm s).
  destruct (m s) as [[a|e] s1 ev1]; cbn in *; [|done].
  apply Forall_app. split; [done|apply Hk].
Qed.

Lemma only_warnings_for_each {S A} (l : list A) (body : A -> M S unit) :
  (forall x, only_warnings (body x)) -> only_warnings (for_each l body).
Proof.
  intros H. induction l as [|x l IH]; [by intros s; constructor|].
  cbn [for_each]. by apply only_warnings_bind.
Qed.

Lemma only_warnings_silent {S A} (m : M S A) :
  (forall s, events (m s) = []) -> only_warnings m.
Proof. intros H s. rewrite H. constructor. Qed.

Lemma only_warnings_warning {S} msg : only_warnings (@warning S msg).
Proof. intros s. by repeat constructor. Qed.

Lemma only_warnings_getitem k : only_warnings (getitem k).
Proof.
  apply only_warnings_silent. intros s. unfold getitem.
  by destruct (s !! k).
Qed.

Lemma only_warnings_warn_setting k : only_warnings (warn_setting k).
Proof.
  apply only_warnings_bind; [apply only_warnings_getitem|].
  intros v. apply only_warnings_warning.
Qed.

Lemma only_warnings_clean_urls : only_warnings deprecated_clean_urls.
Proof.
  apply only_warnings_bind; [by apply only_warnings_silent|]. intros flag.
  destruct (truthy flag); [|by apply only_warnings_silent].
  apply only_warnings_bind; [apply only_warnings_warning|]. intros _.
  repeat (apply only_warnings_bind; [by apply only_warnings_silent|];
          intros _).
  apply only_warnings_for_each, only_warnings_warn_setting.
Qed.

Lemma only_warnings_permalink : only_warnings deprecated_permalink_structure.
Proof.
  apply only_warnings_bind; [by apply only_warnings_silent|]. intros flag.
  destruct (truthy flag); [|by apply only_warnings_silent].
  apply only_warnings_bind; [apply only_warnings_warning|]. intros _.
  apply only_warnings_bind; [apply only_warnings_getitem|]. intros v.
  apply only_warnings_bind;
    [by apply only_warnings_silent; intros s; destruct v|].
  intros st. apply only_warnings_for_each. intros k.
  apply only_warnings_bind; [apply only_warnings_getitem|]. intros old.
  apply only_warnings_bind;
    [by apply only_warnings_silent; intros s; destruct old|].
  intros joined.
  apply only_warnings_bind; [by apply only_warnings_silent|]. intros _.
  apply only_warnings_warn_setting.
Qed.

Lemma only_warnings_handle_deprecation : only_warnings _handle_deprecation.
Proof.
  apply only_warnings_bind; [apply only_warnings_clean_urls|].
  intros _. apply only_warnings_permalink.
Qed.

Section Construction.

Context {World : Type} `{Ext : Externals World}.

Lemma observer_bind {A B} (m : M World A) (k : A -> M World B) :
  observer m -> (forall a, observer (k a)) -> observer (m ≫= k).
Proof.
  intros Hm Hk w. unfold mbind, M_bind, bind. destruct (Hm w) as [Hw Hev].
  destruct (m w) as [[a|e] w1 ev1]; cbn in *; subst; [|done].
  destruct (Hk a w) as [Hw' Hev']. split; [done|]. by apply Forall_app.
Qed.

Lemma observer_pure {A} (m : M World A) :
  (forall w, final (m w) = w /\ events (m w) = []) -> observer m.
Proof. intros H w. destruct (H w) as [-> ->]. by split. Qed.

Lemma observer_item settings k :
  observer (item settings k : M World PyVal).
Proof. apply observer_pure. intros w. unfold item. by destruct (settings !! k). Qed.

Lemma world_observer_bind {A B} (m : M (Heap World) A) (k : A -> M (Heap World) B) :
  world_observer m -> (forall a, world_observer (k a)) ->
  world_observer (m ≫= k).
Proof.
  intros Hm Hk h. unfold mbind, M_bind, bind. destruct (Hm h) as [Hw Hev].
  destruct (m h) as [[a|e] h1 ev1]; cbn in *; [|done].
  destruct (Hk a h1) as [Hw' Hev']. split; [congruence|]. by apply Forall_app.
Qed.

Lemma world_observer_pure {A} (m : M (Heap World) A) :
  (forall h, final (m h) = h /\ events (m h) = []) -> world_observer m.
Proof. intros H h. destruct (H h) as [-> ->]. by split. Qed.

Lemma world_observer_in_world {A} (m : M World A) :
  observer m -> world_observer (in_world m).
Proof. intros H h. destruct (H (fst h)) as [Hw Hev]. by split. Qed.

Lemma world_observer_in_settings {A} (m : M Settings A) :
  only_warnings m -> world_observer (World:=World) (in_settings m).
Proof. intros H h. split; [done|apply H]. Qed.

(** [a or settings[k]] reads and logs nothing. *)
Lemma or_setting_run a k (h : Heap World) :
  or_setting a k h
  = MkRun (if truthy a then Ret a
           else match snd h !! k with
                | Some v => Ret v
                | None => Raise (KeyError k)
                end) h [].
Proof.
  unfold or_setting. destruct (truthy a); [done|].
  unfold in_settings, getitem. destruct h as [w s]. cbn [fst snd].
  by destruct (s !! k).
Qed.

Lemma world_observer_or_setting a k : world_observer (World:=World) (or_setting a k).
Proof. apply world_observer_pure. intros h. by rewrite or_setting_run. Qed.

Lemma world_observer_init_attributes path theme output_path markup del :
  world_observer (World:=World) (init_attributes_in_place path theme output_path markup del).
Proof.
  unfold init_attributes_in_place.
  apply world_observer_bind; [apply world_observer_or_setting|]. intros p.
  apply world_observer_bind;
    [by apply world_observer_pure; intros h; destruct (truthy p)|]. intros _.
  apply world_observer_bind;
    [by apply world_observer_pure; intros h; destruct p|].
  intros p'.
  apply world_observer_bind;
    [apply world_observer_in_settings, only_warnings_handle_deprecation|].
  intros _.
  apply world_observer_bind; [apply world_observer_or_setting|]. intros th.
  apply world_observer_bind; [apply world_observer_or_setting|]. intros out.
  apply world_observer_bind;
    [by apply world_observer_pure; intros h; destruct out|].
  intros out'.
  apply world_observer_bind;
    [by apply world_observer_in_world, observer_pure|]. intros out''.
  apply world_observer_bind; [apply world_observer_or_setting|]. intros mk.
  apply world_observer_bind; [apply world_observer_or_setting|]. intros d.
  apply world_observer_bind; [by apply world_observer_pure|]. intros s.
  by apply world_observer_pure.
Qed.

Lemma observer_by_value {A} (m : M (Heap World) A) settings :
  world_observer m -> observer (by_value m settings).
Proof. intros H w. exact (H (w, settings)). Qed.

Lemma observer_init_attributes settings path theme output_path markup del :
  observer (init_attributes settings path theme output_path markup del).
Proof. apply observer_by_value, world_observer_init_attributes. Qed.

Lemma observer_find_theme theme self : observer (find_theme theme self).
Proof.
  unfold find_theme.
  apply observer_bind;
    [by apply observer_pure; intros w; destruct (self_theme self)|].
  intros th.
  apply observer_bind; [by apply observer_pure|]. intros found.
  destruct found; [by apply observer_pure|].
  apply observer_bind; [by apply observer_pure|]. intros found.
  destruct found; by apply observer_pure.
Qed.

Lemma world_observer_init path theme output_path markup del :
  world_observer (World:=World) (init_in_place path theme output_path markup del).
Proof.
  apply world_observer_bind; [apply world_observer_init_attributes|].
  intros self. apply world_observer_in_world, observer_find_theme.
Qed.

Lemma observer_init settings path theme output_path markup del :
  observer (__init__ settings path theme output_path markup del).
Proof. apply observer_by_value, world_observer_init. Qed.

(** [__init__] is the reading of the attributes, then the lookup of the
    theme in the same world. *)
Lemma init_outcome settings path theme output_path markup del (w : World) :
  outcome (__init__ settings path theme output_path markup del w)
  = match outcome (init_attributes settings path theme output_path markup
                     del w) with
    | Ret self => outcome (find_theme theme self w)
    | Raise e => Raise e
    end.
Proof.
  unfold __init__, init_attributes, by_value, init_in_place.
  cbn [outcome]. rewrite bind_run.
  destruct (world_observer_init_attributes path theme output_path markup del
              (w, default _DEFAULT_CONFIG settings)) as [Hw _].
  destruct (init_attributes_in_place path theme output_path markup del
              (w, default _DEFAULT_CONFIG settings)) as [[self|e] [w1 s1] ev1];
    cbn [outcome final events fst snd in_world] in *; [|done].
  by subst.
Qed.

(** What lines 52-59 answer for a theme that is a string. *)
Lemma find_theme_outcome theme self th (w : World) :
  self_theme self = PyStr th ->
  outcome (find_theme theme self w)
  = if path_exists w th then Ret self
    else if path_exists w (bundled_theme th)
         then Ret (with_theme self (bundled_theme th))
         else Raise (Exception ("Impossible to find the theme "
                                +:+ format_arg theme)).
Proof.
  intros H. unfold find_theme. rewrite H. cbn [expect_path].
  unfold mbind, M_bind, bind, ask, ret, raise. cbn [outcome final events].
  destruct (path_exists w th); cbn [outcome final events]; [done|].
  by destruct (path_exists w (bundled_theme th)).
Qed.

(** C7: constructing a [Pelican] touches nothing and logs at most
    warnings (no generator is constructed and no build is run); it
    raises when no content path is given, neither as an argument nor in
    the settings; and once the attributes are read, it raises when
    neither the theme nor the bundled theme of that name exists, and
    returns the instance with the bundled theme when only that one
    exists. *)
Theorem construction_checks (settings : option Settings)
    (path theme output_path : option string)
    (markup : option (list string)) (delete_outputdir : bool) (w : World) :
  let cfg := default _DEFAULT_CONFIG settings in
  let r := __init__ settings path theme output_path markup delete_outputdir w in
  (final r = w /\ Forall (fun ev => is_warning ev = true) (events r)) /\
  (truthy (of_arg path) = false ->
   truthy (default PyNone (cfg !! "PATH")) = false ->
   exists e, outcome r = Raise e /\ is_Exception e = true /\
     (is_Some (cfg !! "PATH") ->
      e = Exception ("You need to specify a path containing the content"
                     +:+ " (see pelican --help for more information)"))) /\
  (forall self th,
     outcome (init_attributes settings path theme output_path markup
                delete_outputdir w) = Ret self ->
     self_theme self = PyStr th ->
     outcome r
     = if path_exists w th then Ret self
       else if path_exists w (bundled_theme th)
            then Ret (with_theme self (bundled_theme th))
            else Raise (Exception ("Impossible to find the theme "
                                   +:+ format_arg theme))).
Proof.
  intros cfg r. split; [apply observer_init|]. split.
  - intros Hp Hs. subst r. rewrite init_outcome.
    unfold init_attributes, by_value, init_attributes_in_place. fold cfg.
    cbn [outcome]. rewrite bind_run, or_setting_run, Hp.
    cbn [outcome final events snd].
    destruct (cfg !! "PATH") as [v|] eqn:E.
    + cbn [default id] in Hs. rewrite bind_run. unfold raise_if.
      rewrite Hs. cbn [negb raise outcome].
      eexists. split; [reflexivity|]. by split.
    + eexists. split; [reflexivity|]. split; [done|].
      by intros [? [=]].
  - intros self th Hattr Hth. subst r. rewrite init_outcome, Hattr.
    by apply find_theme_outcome.
Qed.

(** ** The watch loop and the entry point *)

Lemma run_count_runs self (w : World) : count_runs (events (run self w)) = 1.
Proof.
  unfold count_runs. rewrite run_events, filter_app_events.
  destruct (prepare_events self w) as (classes & steps & -> & _).
  cbn [List.filter is_run]. rewrite filter_app_events.
  rewrite (filter_none _ (map Construct classes))
    by (by apply Forall_map_events).
  rewrite (filter_none _ (map GenerateContext steps))
    by (by apply Forall_map_events).
  rewrite filter_none; [done|].
  destruct (outcome (prepare self w)) as [generators|e]; [|constructor].
  eapply Forall_impl; [apply finish_events|]. by intros [].
Qed.

Lemma prepare_no_poll self (w : World) :
  Forall (fun ev => is_poll ev = false) (events (prepare self w)).
Proof.
  destruct (prepare_events self w) as (classes & steps & -> & _).
  constructor; [done|]. apply Forall_app. split; by apply Forall_map_events.
Qed.

Lemma run_no_poll self (w : World) :
  Forall (fun ev => is_poll ev = false) (events (run self w)).
Proof.
  rewrite run_events. apply Forall_app. split; [apply prepare_no_poll|].
  destruct (outcome (prepare self w)) as [generators|e]; [|constructor].
  eapply Forall_impl; [apply finish_events|]. by intros [].
Qed.

(** The two questions of a pass, with the answers [c1] and [c2] of
    [files_changed]. *)
Lemma poll_run pelican (w w1 w2 : World) (c1 c2 : bool) :
  files_changed (PyStr (self_path pelican)) (self_markup pelican) w
  = (Ret c1, w1) ->
  files_changed (self_theme pelican) (PyList [""]) w1 = (Ret c2, w2) ->
  poll pelican w
  = MkRun (Ret (c1 || c2)) (if c1 then w1 else w2)
      (FilesChanged (PyStr (self_path pelican)) (self_markup pelican)
       :: (if c1 then []
           else [FilesChanged (self_theme pelican) (PyList [""])])).
Proof.
  intros H1 H2. unfold poll, mbind, M_bind, bind, call, emit.
  cbn [outcome final events]. rewrite H1. cbn [outcome final events].
  destruct c1; cbn [outcome final events orb]; [done|].
  by rewrite H2.
Qed.

Lemma or_break_events (m : M World unit) (w : World) :
  events (or_break m w) = events (m w).
Proof. unfold or_break. by destruct (outcome (m w)) as [|[]]. Qed.

(** C8: in a pass of the watch loop in which [files_changed] answers
    [c1] for the content tree and would answer [c2] for the theme tree,
    [run] is entered once when either answer is true and not at all
    when both are false; the run takes place after the questions of
    this pass, it asks nothing itself, and the events of the next pass
    come after it. *)
Theorem watch_iteration_runs (pelican : Pelican) (w w1 w2 : World)
    (c1 c2 : bool) :
  files_changed (PyStr (self_path pelican)) (self_markup pelican) w
  = (Ret c1, w1) ->
  files_changed (self_theme pelican) (PyList [""]) w1 = (Ret c2, w2) ->
  let polls :=
    FilesChanged (PyStr (self_path pelican)) (self_markup pelican)
    :: (if c1 then []
        else [FilesChanged (self_theme pelican) (PyList [""])]) in
  let rebuild :=
    if c1 || c2 then run pelican (if c1 then w1 else w2)
    else MkRun (Ret tt) w2 [] in
  let r := watch_iteration pelican w in
  events r
  = polls ++ events rebuild
    ++ match outcome rebuild with Ret _ => [Sleep] | Raise _ => [] end /\
  count_runs (events r) = (if c1 || c2 then 1 else 0) /\
  Forall (fun ev => is_poll ev = false) (events rebuild) /\
  (forall n, exists later,
     events (watch_loop (S n) pelican w) = events r ++ later).
Proof.
  intros H1 H2 polls rebuild r.
  assert (Hev : events r
          = polls ++ events rebuild
            ++ match outcome rebuild with Ret _ => [Sleep] | Raise _ => [] end).
  { subst r. unfold watch_iteration. rewrite or_break_events. unfold tick.
    rewrite bind_run, (poll_run pelican w w1 w2 c1 c2 H1 H2).
    cbn [outcome final events]. fold polls. f_equal.
    rewrite bind_run. subst rebuild.
    destruct (c1 || c2) eqn:Hc.
    - destruct (run pelican (if c1 then w1 else w2)) as [[[]|e] w3 ev3];
        cbn [outcome final events]; [|by rewrite app_nil_r].
      f_equal. rewrite bind_run. cbn [emit outcome final events].
      unfold call. by destruct (sleep w3) as [[] ?].
    - destruct c1; [done|]. cbn [ret outcome final events app].
      rewrite bind_run. cbn [emit outcome final events].
      unfold call. by destruct (sleep w2) as [[] ?]. }
  assert (Hnp : Forall (fun ev => is_poll ev = false) (events rebuild)).
  { subst rebuild. destruct (c1 || c2); [apply run_no_poll|constructor]. }
  split; [exact Hev|]. split; [|split; [exact Hnp|]].
  - rewrite Hev. unfold count_runs. rewrite !filter_app_events, !length_app.
    replace (List.filter is_run polls) with (@nil Event)
      by (subst polls; by destruct c1).
    replace (List.filter is_run
               match outcome rebuild with Ret _ => [Sleep] | Raise _ => [] end)
      with (@nil Event) by (by destruct (outcome rebuild)).
    cbn [length]. rewrite Nat.add_0_r. subst rebuild.
    destruct (c1 || c2); [apply run_count_runs|done].
  - intros n. cbn [watch_loop]. rewrite bind_run. fold r.
    destruct (outcome r) as [c|e]; [|by exists []; rewrite app_nil_r].
    by eexists.
Qed.

(** Lines 202-206 log nothing. *)
Lemma pelican_class_events settings (w : World) :
  events (pelican_class settings w) = [].
Proof.
  unfold pelican_class.
  destruct (default PyNone (settings !! "PELICAN_CLASS")) as [| | |name| |];
    try done.
  destruct (rsplit_dot name) as [[module cls_name]|]; [|done].
  unfold call. by destruct (import_attr module cls_name w).
Qed.

(** [main] once the log is set up, the settings are read and the class
    is found: the [try] statement, in the world these steps leave. *)
Lemma main_resolved args n (w w0 w1 : World) settings cls :
  log_init (args_verbosity args) w = (Ret tt, w0) ->
  read_settings (args_settings args) w0 = (Ret settings, w1) ->
  outcome (pelican_class settings w1) = Ret cls ->
  main args n w
  = try_except (main_try cls args settings n) (main_except args)
      (final (pelican_class settings w1)).
Proof.
  intros H0 H1 Hc. unfold main, mbind, M_bind, bind, call.
  rewrite H0. cbn [outcome final events]. rewrite H1.
  cbn [outcome final events app]. rewrite Hc, pelican_class_events.
  cbn [app]. by destruct (try_except _ _ _).
Qed.

(** The handler of lines 227-233, in full. *)
Lemma main_except_run args e (w : World) :
  main_except args e w
  = match first_non_ascii (str e) with
    | None =>
        MkRun (if bool_decide (args_verbosity args = Some logging_DEBUG)
               then Raise e else Raise (SystemExit (getattr_exitcode e)))
          w [Critical (str e)]
    | Some (pos, c) => MkRun (Raise (decode_error pos c)) w []
    end.
Proof.
  unfold main_except, unicode, decode_ascii, mbind, M_bind, bind.
  destruct (first_non_ascii (str e)) as [[pos c]|];
    cbn [raise ret emit outcome final events]; [done|].
  by destruct (bool_decide _).
Qed.

Lemma main_except_no_run args e (w : World) :
  List.filter is_run (events (main_except args e w)) = [].
Proof.
  rewrite main_except_run. by destruct (first_non_ascii (str e)) as [[pos c]|].
Qed.

(** C9: an instance of [Exception] whose message has a byte that is not
    ASCII is not reported: [unicode(e)] raises inside the handler, so
    nothing is logged as critical, and [main] is left by a
    [UnicodeDecodeError], under every verbosity, instead of the error
    itself or a [SystemExit] with its exit code. *)
Theorem main_failure_with_non_ascii_message (args : Args) (n : nat)
    (w w0 w1 : World) (settings : Settings) (cls : PyVal) (e : Exn)
    (pos : nat) (c : ascii) :
  log_init (args_verbosity args) w = (Ret tt, w0) ->
  read_settings (args_settings args) w0 = (Ret settings, w1) ->
  outcome (pelican_class settings w1) = Ret cls ->
  let w2 := final (pelican_class settings w1) in
  outcome (main_try cls args settings n w2) = Raise e ->
  is_Exception e = true ->
  first_non_ascii (str e) = Some (pos, c) ->
  main args n w
  = MkRun (Raise (decode_error pos c))
      (final (main_try cls args settings n w2))
      (events (main_try cls args settings n w2)).
Proof.
  intros H0 H1 Hc w2 Ht He Hm.
  rewrite (main_resolved args n w w0 w1 settings cls H0 H1 Hc). fold w2.
  unfold try_except. rewrite Ht, He, main_except_run, Hm.
  cbn [outcome final events]. by rewrite app_nil_r.
Qed.

End Construction.

(** ** The properties on the test double *)

(** With the delete flag set and the output directory inside the source
    tree, the output path is no prefix of the content path:
    [clean_output_dir] is called, and the run ends in the world it
    left, without what was in the directory. *)
Lemma cleanup_iff_output_not_prefix_witness :
  CleanOutputDir "/a/b/output"
  ∈ events (run (Stub.pelican_of "/a/b" "/a/b/output" true) Stub.tree) /\
  final (run (Stub.pelican_of "/a/b" "/a/b/output" true) Stub.tree)
  = Stub.erase "/a/b/output" Stub.tree /\
  path_exists
    (final (run (Stub.pelican_of "/a/b" "/a/b/output" true) Stub.tree))
    "/a/b/output/post.html" = false.
Proof.
  assert (Hp : outcome (prepare (Stub.pelican_of "/a/b" "/a/b/output" true)
                          Stub.tree)
               = Ret (Stub.generators_of
                        (Stub.pelican_of "/a/b" "/a/b/output" true)))
    by (vm_compute; reflexivity).
  pose proof (cleanup_iff_output_not_prefix
                (Stub.pelican_of "/a/b" "/a/b/output" true) Stub.tree _
                eq_refl Hp) as H.
  cbv zeta in H. destruct H as ([_ Hin] & Hrun & _).
  assert (Hpre : String.prefix "/a/b/output" "/a/b" = false)
    by (vm_compute; reflexivity).
  split; [exact (Hin Hpre)|]. rewrite (Hrun Hpre).
  split; vm_compute; reflexivity.
Defined.

(** C1 as it is worded fails for a run whose context phase raises: the
    delete flag is set and the output path is no prefix of the content
    path, yet [clean_output_dir] is not called and the directory is
    still there after the run. *)
Lemma cleanup_needs_context_phase_counterexample :
  truthy (self_delete_outputdir (Stub.pelican_of "/a/b" "/a/b/output" true))
  = true /\
  ~ (CleanOutputDir "/a/b/output"
     ∈ events (run (Stub.pelican_of "/a/b" "/a/b/output" true)
                 Stub.tree_broken)
     <-> String.prefix "/a/b/output" (realpath Stub.tree_broken "/a/b")
         = false) /\
  outcome (run (Stub.pelican_of "/a/b" "/a/b/output" true) Stub.tree_broken)
  = Raise Stub.generation_error /\
  path_exists
    (final (run (Stub.pelican_of "/a/b" "/a/b/output" true) Stub.tree_broken))
    "/a/b/output/post.html" = true.
Proof.
  split; [reflexivity|]. split; [|split; vm_compute; reflexivity].
  intros [_ H].
  assert (Hpre : String.prefix "/a/b/output"
                   (realpath Stub.tree_broken "/a/b") = false)
    by (vm_compute; reflexivity).
  specialize (H Hpre). revert H. by_decide.
Qed.

(** The scenario of the specification, end to end: the content is
    [/a/b], the output directory [/a/b/output] exists, the delete flag
    is set.  [clean_output_dir] is called on the directory, and after
    the run the directory and what was in it are gone: C2 fails as it
    is worded. *)
Lemma output_below_content_counterexample :
  path_exists Stub.tree "/a/b/output" = true /\
  outcome (Stub.build "/a/b" "/a/b/output" true Stub.tree) = Ret tt /\
  CleanOutputDir "/a/b/output"
  ∈ events (Stub.build "/a/b" "/a/b/output" true Stub.tree) /\
  path_exists (final (Stub.build "/a/b" "/a/b/output" true Stub.tree))
    "/a/b/output" = false /\
  path_exists (final (Stub.build "/a/b" "/a/b/output" true Stub.tree))
    "/a/b/output/post.html" = false.
Proof.
  split; [vm_compute; reflexivity|]. split; [vm_compute; reflexivity|].
  split; [|split; vm_compute; reflexivity].
  by_decide.
Qed.

(** The scenario with the two paths exchanged: the content lies below
    the output path, nothing is cleaned and the directory is still
    there after the run.  The same holds when the output path is the
    root. *)
Lemma no_cleanup_when_content_under_output_witness :
  (Forall (fun ev => is_cleanup ev = false)
     (events (run (Stub.pelican_of "/a/b/output" "/a/b" true) Stub.tree)) /\
   path_exists
     (final (run (Stub.pelican_of "/a/b/output" "/a/b" true) Stub.tree))
     "/a/b" = true) /\
  Forall (fun ev => is_cleanup ev = false)
    (events (run (Stub.pelican_of "/a/b" "/" true) Stub.tree)).
Proof.
  split; [split; [|vm_compute; reflexivity]|].
  - apply (no_cleanup_when_content_under_output
             (Stub.pelican_of "/a/b/output" "/a/b" true) Stub.tree).
    right. exists "output". split; vm_compute; reflexivity.
  - apply (no_cleanup_when_content_under_output
             (Stub.pelican_of "/a/b" "/" true) Stub.tree).
    right. exists "a/b". split; vm_compute; reflexivity.
Defined.


(** With [PDF_GENERATOR] off the pipeline has its three fixed members. *)
Lemma pipeline_members_witness :
  get_generator_classes (Stub.pelican_of "/a/b" "/out" false) Stub.tree
  = MkRun (Ret [ArticlesGenerator; PagesGenerator; StaticGenerator])
      Stub.tree [].
Proof.
  assert (H : self_settings (Stub.pelican_of "/a/b" "/out" false)
              !! "PDF_GENERATOR" = Some (PyBool false))
    by (vm_compute; reflexivity).
  exact (proj1 (pipeline_members (Stub.pelican_of "/a/b" "/out" false)
                  Stub.tree (PyBool false) H)).
Defined.

(** The theme [simple] does not exist as a path, the bundled theme of
    that name does: the instance has the bundled theme. *)
Lemma construction_checks_witness :
  outcome (__init__ (Some Stub.default_config) (Some "/a/b") (Some "simple")
             (Some "/out") None false Stub.tree_bundled)
  = Ret (MkPelican "/a/b" Stub.default_config
           (PyStr "/pelican/themes/simple") "/out" (PyList ["rst"; "md"])
           (PyBool false)).
Proof.
  assert (H : outcome (init_attributes (Some Stub.default_config)
                         (Some "/a/b") (Some "simple") (Some "/out") None
                         false Stub.tree_bundled)
              = Ret (MkPelican "/a/b" Stub.default_config (PyStr "simple")
                       "/out" (PyList ["rst"; "md"]) (PyBool false)))
    by (vm_compute; reflexivity).
  pose proof (proj2 (proj2 (construction_checks (Some Stub.default_config)
                              (Some "/a/b") (Some "simple") (Some "/out")
                              None false Stub.tree_bundled))
                _ "simple" H eq_refl) as Hout.
  rewrite Hout. vm_compute. reflexivity.
Defined.

(** Two passes of the loop: nothing changed, no run; the content
    changed, one run. *)
Lemma watch_iteration_runs_witness :
  count_runs (events (watch_iteration (Stub.pelican_of "/a/b" "/out" false)
                        Stub.tree_watched)) = 0 /\
  count_runs (events (watch_iteration (Stub.pelican_of "/a/b" "/out" false)
                        Stub.tree_watched2)) = 1.
Proof.
  split.
  - exact (proj1 (proj2 (watch_iteration_runs
                           (Stub.pelican_of "/a/b" "/out" false)
                           Stub.tree_watched Stub.tree_watched1
                           Stub.tree_watched2 false false eq_refl eq_refl))).
  - exact (proj1 (proj2 (watch_iteration_runs
                           (Stub.pelican_of "/a/b" "/out" false)
                           Stub.tree_watched2 Stub.tree_watched3
                           Stub.tree_watched3 true false eq_refl eq_refl))).
Defined.

(** A theme that does not exist and whose name has a letter outside
    ASCII: the constructor raises, the handler fails to decode the
    message, and [main] is left by the error of the codec with nothing
    logged. *)
Lemma main_failure_with_non_ascii_message_witness :
  main Stub.accented_theme_args 0 Stub.tree
  = MkRun (Raise (UnicodeDecodeError
                    ("'ascii' codec can't decode byte 0xc3 in position 31:"
                     +:+ " ordinal not in range(128)")))
      Stub.tree [].
Proof.
  assert (Hc : outcome (pelican_class Stub.default_config Stub.tree)
               = Ret PyPelicanClass) by (vm_compute; reflexivity).
  assert (H : outcome (main_try PyPelicanClass Stub.accented_theme_args
                         Stub.default_config 0
                         (final (pelican_class Stub.default_config Stub.tree)))
              = Raise (Exception ("Impossible to find the theme "
                                  +:+ Stub.accented_theme)))
    by (vm_compute; reflexivity).
  assert (Hm : first_non_ascii
                 (str (Exception ("Impossible to find the theme "
                                  +:+ Stub.accented_theme)))
               = Some (31, ascii_of_nat 195)) by (vm_compute; reflexivity).
  rewrite (main_failure_with_non_ascii_message (Ext := Stub.externals)
             Stub.accented_theme_args 0 Stub.tree Stub.tree Stub.tree
             Stub.default_config PyPelicanClass _ _ _
             eq_refl eq_refl Hc H eq_refl Hm).
  vm_compute. reflexivity.
Defined.

(** * Further properties of the code *)

(** ** Settings migration *)

(** X1: settings in which neither deprecated key is set to a true value
    pass through the migration unchanged, and nothing is logged. *)
Theorem migration_without_deprecated_keys (s : Settings) :
  truthy (default (PyBool false) (s !! "CLEAN_URLS")) = false ->
  truthy (default (PyBool false) (s !! "ARTICLE_PERMALINK_STRUCTURE")) = false ->
  _handle_deprecation s = MkRun (Ret tt) s [].
Proof.
  intros Hc Hp. unfold _handle_deprecation.
  rewrite (bind_ret_run _ _ _ _ _ _ (clean_urls_skip s Hc)).
  by rewrite (permalink_skip s Hp).
Qed.

Lemma migration_without_deprecated_keys_witness :
  _handle_deprecation Stub.default_config = MkRun (Ret tt) Stub.default_config [].
Proof.
  apply migration_without_deprecated_keys; vm_compute; reflexivity.
Defined.

(** X2: the clean-URL step is idempotent: run on the settings it
    produced, it returns them as they are, with the same warnings. *)
Theorem clean_urls_twice (s : Settings) :
  truthy (default (PyBool false) (s !! "CLEAN_URLS")) = true ->
  deprecated_clean_urls (final (deprecated_clean_urls s))
  = deprecated_clean_urls s.
Proof.
  intros H. rewrite (clean_urls_run s H). cbn [final].
  rewrite clean_urls_run by (by rewrite !lookup_insert_ne).
  f_equal. apply map_eq. intros k.
  destruct (decide (k = "PAGE_LANG_URL")) as [->|]; [by simplify_map_eq|].
  destruct (decide (k = "PAGE_URL")) as [->|]; [by simplify_map_eq|].
  destruct (decide (k = "ARTICLE_LANG_URL")) as [->|]; [by simplify_map_eq|].
  destruct (decide (k = "ARTICLE_URL")) as [->|]; [by simplify_map_eq|].
  by rewrite !lookup_insert_ne.
Qed.

Lemma clean_urls_twice_witness :
  deprecated_clean_urls (final (deprecated_clean_urls legacy_settings))
  = deprecated_clean_urls legacy_settings.
Proof. apply clean_urls_twice. vm_compute. reflexivity. Defined.

(** The keys the loop writes keep holding strings. *)
Lemma for_each_prefix_strings structure ks (s : Settings) :
  NoDup ks ->
  (forall k, k ∈ ks -> exists v, s !! k = Some (PyStr v)) ->
  forall k, k ∈ ks ->
    exists v, final (for_each ks (prefix_setting structure) s) !! k
              = Some (PyStr v).
Proof.
  intros Hnd Hs k Hk. destruct (Hs k Hk) as [v Hv].
  destruct (for_each_prefix_ok structure ks Hnd s Hs) as [_ Hf].
  eexists. by apply Hf.
Qed.

(** X3: the permalink step is not idempotent: run a second time on the
    settings it produced, it puts the structure in front of each of the
    eight settings once more. *)
Theorem permalink_twice (s : Settings) (st : string) :
  s !! "ARTICLE_PERMALINK_STRUCTURE" = Some (PyStr st) -> st ≠ "" ->
  (forall k, k ∈ permalink_keys -> exists v, s !! k = Some (PyStr v)) ->
  let structure := convert_structure st in
  let again :=
    deprecated_permalink_structure (final (deprecated_permalink_structure s)) in
  outcome again = Ret tt /\
  forall k v, k ∈ permalink_keys -> s !! k = Some (PyStr v) ->
    final again !! k
    = Some (PyStr (os_path_join structure (os_path_join structure v))).
Proof.
  intros Hs Hne Hkeys structure again. subst again.
  rewrite (permalink_run s st Hs Hne). cbn [final]. fold structure.
  destruct (for_each_prefix_ok structure permalink_keys permalink_keys_NoDup
              s Hkeys) as [_ Hf1].
  set (s1 := final (for_each permalink_keys (prefix_setting structure) s)) in *.
  assert (Hs1 : s1 !! "ARTICLE_PERMALINK_STRUCTURE" = Some (PyStr st)).
  { subst s1. rewrite for_each_prefix_other; [done|by_decide]. }
  rewrite (permalink_run s1 st Hs1 Hne). cbn [final outcome]. fold structure.
  destruct (for_each_prefix_ok structure permalink_keys permalink_keys_NoDup
              s1) as [Ho Hf2].
  { subst s1. by apply for_each_prefix_strings; [apply permalink_keys_NoDup|]. }
  split; [exact Ho|]. intros k v Hk Hv. apply Hf2; [done|]. by apply Hf1.
Qed.

Lemma permalink_twice_witness :
  final (deprecated_permalink_structure
           (final (deprecated_permalink_structure dated_settings)))
    !! "ARTICLE_URL"
  = Some (PyStr ("{date:%Y}/{date:%m}/{category}/"
                 +:+ "{date:%Y}/{date:%m}/{category}/{slug}.html")).
Proof.
  assert (Hne : legacy dated_tokens ≠ "") by (vm_compute; discriminate).
  pose proof (permalink_twice dated_settings (legacy dated_tokens) eq_refl Hne
                dated_settings_keys) as H.
  cbv zeta in H. destruct H as [_ H].
  rewrite (H "ARTICLE_URL" "{slug}.html");
    [vm_compute; reflexivity|by_decide|vm_compute; reflexivity].
Defined.

Lemma prefix_setting_missing structure k (s : Settings) :
  s !! k = None ->
  prefix_setting structure k s = MkRun (Raise (KeyError k)) s [].
Proof.
  intros H. unfold prefix_setting, mbind, M_bind, bind, getitem.
  by rewrite H.
Qed.

(** X4: when one of the eight settings is missing, the permalink step
    raises [KeyError] for the first missing key; the settings before it
    in the loop have been rewritten by then, every other key is as it
    was. *)
Theorem permalink_missing_key (s : Settings) (st : string)
    (before after : list string) (k : string) :
  s !! "ARTICLE_PERMALINK_STRUCTURE" = Some (PyStr st) -> st ≠ "" ->
  permalink_keys = before ++ k :: after ->
  (forall j, j ∈ before -> exists v, s !! j = Some (PyStr v)) ->
  s !! k = None ->
  let structure := convert_structure st in
  let r := deprecated_permalink_structure s in
  outcome r = Raise (KeyError k) /\
  (forall j v, j ∈ before -> s !! j = Some (PyStr v) ->
     final r !! j = Some (PyStr (os_path_join structure v))) /\
  (forall j, j ∉ before -> final r !! j = s !! j).
Proof.
  intros Hs Hne Hkeys Hbefore Hk structure r. subst r.
  rewrite (permalink_run s st Hs Hne). cbn [outcome final]. fold structure.
  rewrite Hkeys, for_each_app.
  assert (Hnd : NoDup before).
  { pose proof permalink_keys_NoDup as H. rewrite Hkeys in H.
    by apply NoDup_app in H as [H _]. }
  destruct (for_each_prefix_ok structure before Hnd s Hbefore) as [Ho Hf].
  set (r1 := for_each before (prefix_setting structure) s) in *.
  assert (Hk1 : final r1 !! k = None).
  { subst r1. rewrite for_each_prefix_other; [done|].
    pose proof permalink_keys_NoDup as H. rewrite Hkeys in H.
    apply NoDup_app in H as (_ & H & _). intros Hin.
    apply (H k Hin). by left. }
  rewrite (bind_ret_run _ _ _ _ _ _
             (eq_trans (run_eta r1) (f_equal3 MkRun Ho eq_refl eq_refl))).
  cbn [for_each].
  rewrite (bind_raise_run _ _ _ _ _ _
             (prefix_setting_missing structure k _ Hk1)).
  cbn [outcome final]. split; [done|]. split; [exact Hf|].
  intros j Hj. subst r1. by apply for_each_prefix_other.
Qed.

Lemma permalink_missing_key_witness :
  outcome (deprecated_permalink_structure incomplete_settings)
  = Raise (KeyError "ARTICLE_LANG_URL") /\
  final (deprecated_permalink_structure incomplete_settings) !! "ARTICLE_URL"
  = Some (PyStr "{date:%Y}/{date:%m}/{category}/{slug}.html") /\
  final (deprecated_permalink_structure incomplete_settings) !! "PAGE_URL"
  = Some (PyStr "pages/{slug}.html").
Proof.
  assert (Hne : legacy dated_tokens ≠ "") by (vm_compute; discriminate).
  assert (Hb : forall j, j ∈ ["ARTICLE_URL"] ->
                 exists v, incomplete_settings !! j = Some (PyStr v)).
  { intros j ->%list_elem_of_singleton. by eexists. }
  pose proof (permalink_missing_key incomplete_settings (legacy dated_tokens)
                ["ARTICLE_URL"]
                ["PAGE_URL"; "PAGE_LANG_URL"; "ARTICLE_SAVE_AS";
                 "ARTICLE_LANG_SAVE_AS"; "PAGE_SAVE_AS"; "PAGE_LANG_SAVE_AS"]
                "ARTICLE_LANG_URL" eq_refl Hne eq_refl Hb eq_refl) as H.
  cbv zeta in H. destruct H as (Ho & Hf & Hother).
  split; [exact Ho|]. split.
  - rewrite (Hf "ARTICLE_URL" "{slug}.html");
      [vm_compute; reflexivity|by_decide|vm_compute; reflexivity].
  - rewrite Hother; [vm_compute; reflexivity|by_decide].
Defined.

(** X5: a permalink structure that is set to a true value other than a
    string makes the step raise [TypeError] after its first warning;
    the settings are left as they were. *)
Theorem permalink_structure_not_a_string (s : Settings) (v : PyVal) :
  s !! "ARTICLE_PERMALINK_STRUCTURE" = Some v ->
  truthy v = true ->
  (forall st, v <> PyStr st) ->
  outcome (deprecated_permalink_structure s)
  = Raise (TypeError "expected string or buffer") /\
  final (deprecated_permalink_structure s) = s /\
  length (events (deprecated_permalink_structure s)) = 1.
Proof.
  intros Hs Ht Hv. unfold deprecated_permalink_structure.
  rewrite get_default_bind, Hs. cbn [default id]. rewrite Ht.
  unfold warning. rewrite emit_bind. rewrite (getitem_bind _ _ _ _ Hs).
  destruct v as [| | |st| |]; try done. by destruct (Hv st).
Qed.

Lemma permalink_structure_not_a_string_witness :
  outcome (deprecated_permalink_structure mistyped_settings)
  = Raise (TypeError "expected string or buffer").
Proof.
  apply (permalink_structure_not_a_string mistyped_settings (PyBool true));
    [vm_compute; reflexivity|reflexivity|discriminate].
Defined.

Lemma os_path_join_absolute a b :
  startswith b "/" = true -> os_path_join a b = b.
Proof. intros H. unfold os_path_join. by rewrite H. Qed.

(** X6: a setting that holds an absolute path is not prefixed by the
    permalink step: [os.path.join] lets an absolute second component
    replace the first. *)
Theorem permalink_keeps_absolute_setting (s : Settings) (st : string)
    (k v : string) :
  s !! "ARTICLE_PERMALINK_STRUCTURE" = Some (PyStr st) ->
  (forall j, j ∈ permalink_keys -> exists u, s !! j = Some (PyStr u)) ->
  k ∈ permalink_keys ->
  s !! k = Some (PyStr v) ->
  startswith v "/" = true ->
  outcome (deprecated_permalink_structure s) = Ret tt /\
  final (deprecated_permalink_structure s) !! k = Some (PyStr v).
Proof.
  intros Hs Hkeys Hk Hv Habs.
  destruct (String.eqb_spec st "") as [->|Hne].
  - rewrite permalink_skip by (by rewrite Hs). by split.
  - rewrite (permalink_run s st Hs Hne). cbn [outcome final].
    destruct (for_each_prefix_ok (convert_structure st) permalink_keys
                permalink_keys_NoDup s Hkeys) as [Ho Hf].
    split; [exact Ho|].
    rewrite (Hf k v Hk Hv). by rewrite os_path_join_absolute.
Qed.

Lemma absolute_settings_keys :
  forall k, k ∈ permalink_keys ->
    exists v, absolute_settings !! k = Some (PyStr v).
Proof.
  apply permalink_keys_present. unfold permalink_keys.
  repeat (constructor; [vm_compute; exact I|]). constructor.
Qed.

Lemma permalink_keeps_absolute_setting_witness :
  final (deprecated_permalink_structure absolute_settings) !! "PAGE_URL"
  = Some (PyStr "/pages/{slug}.html").
Proof.
  apply (permalink_keeps_absolute_setting absolute_settings
           (legacy dated_tokens) "PAGE_URL" "/pages/{slug}.html");
    [vm_compute; reflexivity|apply absolute_settings_keys|by_decide
    |vm_compute; reflexivity|reflexivity].
Defined.

Lemma re_sub_free_of_percent matcher (s : string) :
  (forall c r, Ascii.eqb c "%"%char = false -> matcher (String c r) = None) ->
  free_of "%" s = true -> re_sub matcher s = s.
Proof.
  intros Hm. induction s as [|c s IH]; cbn [free_of]; intros H; [done|].
  apply andb_true_iff in H as [Hc Hs]. apply negb_true_iff in Hc.
  rewrite re_sub_skip by (by apply Hm). by rewrite IH.
Qed.

(** X7: a structure without a percent sign has nothing to convert: only
    one leading separator is removed. *)
Theorem convert_structure_without_tokens (s : string) :
  free_of "%" s = true -> convert_structure s = strip_leading_slash s.
Proof.
  intros H. unfold convert_structure.
  rewrite (re_sub_free_of_percent _ s match_named_other H).
  by rewrite (re_sub_free_of_percent _ s match_strftime_other H).
Qed.

Lemma convert_structure_without_tokens_witness :
  convert_structure "//blog/posts" = "/blog/posts".
Proof.
  rewrite convert_structure_without_tokens; reflexivity.
Defined.

(** ** The build cycle, further *)

Section BuildFurther.

Context {World : Type} `{Ext : Externals World}.

(** X8: without the setting [PDF_GENERATOR] a run raises [KeyError]
    before any generator is constructed; the world is untouched. *)
Theorem run_without_pdf_setting (self : Pelican) (w : World) :
  self_settings self !! "PDF_GENERATOR" = None ->
  run self w = MkRun (Raise (KeyError "PDF_GENERATOR")) w [CallRun].
Proof.
  intros H. unfold run, get_generator_classes, item. rewrite H.
  reflexivity.
Qed.

(** X9: without the delete flag a run never calls [clean_output_dir],
    wherever the output path lies, and is the run without the cleanup
    step. *)
Theorem run_without_delete_flag (self : Pelican) (w : World) :
  truthy (self_delete_outputdir self) = false ->
  Forall (fun ev => is_cleanup ev = false) (events (run self w)) /\
  run self w
  = (prepare self ≫= fun generators => write_output generators self) w.
Proof.
  intros Hdel.
  assert (Hrun : run self w
           = (prepare self ≫= fun generators => write_output generators self) w).
  { apply run_skip. intros g _. by rewrite cleanup_decision_spec, Hdel. }
  split; [|done]. rewrite Hrun, bind_run.
  destruct (outcome (prepare self w)) as [generators|e]; cbn [events].
  - apply Forall_app. split;
      [apply prepare_no_cleanup|apply write_output_no_cleanup].
  - apply prepare_no_cleanup.
Qed.


(** When the generators are constructed, they are those of the classes
    of [get_generator_classes], each with the arguments of line
    105-113. *)
Lemma setup_ret self (w : World) generators :
  outcome (setup self w) = Ret generators ->
  exists classes,
    get_generator_classes self w = MkRun (Ret classes) w [] /\
    generators = map (fun cls => MkGenerator cls (generator_args self)) classes /\
    events (setup self w) = CallRun :: map Construct classes.
Proof.
  unfold setup. rewrite bind_run. cbn [emit outcome final events].
  rewrite bind_run.
  destruct (get_generator_classes_events self w) as [Hev Hw].
  destruct (get_generator_classes self w) as [[classes|e] w1 ev1];
    cbn [outcome final events] in *; [|done]. subst.
  intros H. exists classes. split; [done|].
  destruct (construct_all_spec (generator_args self) classes w) as [_ Hok].
  destruct (Hok generators H) as [-> ->]. done.
Qed.


(** X11: when the constructor of a generator raises, the run raises the
    same error and no context step, cleanup, writer or output step
    takes place. *)
Theorem constructor_failure_stops_run (self : Pelican) (w : World) (e : Exn) :
  outcome (setup self w) = Raise e ->
  outcome (run self w) = Raise e /\
  Forall (fun ev => is_generate_context ev = false
                    /\ after_context ev = false)
         (events (run self w)).
Proof.
  intros Hs.
  assert (Hp : outcome (prepare self w) = Raise e
               /\ events (prepare self w) = events (setup self w)).
  { unfold prepare. rewrite bind_run, Hs. done. }
  destruct Hp as [Hp Hev]. split.
  - by rewrite run_stages, bind_run, Hp.
  - rewrite run_events, Hp, app_nil_r, Hev.
    destruct (setup_events self w) as [classes ->].
    constructor; [done|]. by apply Forall_map_events.
Qed.

End BuildFurther.

(** ** The watch loop and [main], further *)

Section EntryFurther.

Context {World : Type} `{Ext : Externals World}.

Lemma watch_loop_step n pelican (w : World) :
  watch_loop (S n) pelican w
  = (watch_iteration pelican ≫= fun c =>
       match c with
       | Break => ret (Some tt)
       | Continue => watch_loop n pelican
       end) w.
Proof. reflexivity. Qed.

(** X12: a keyboard interrupt during a pass of the watch loop, be it in
    a question, in the rebuild or in the sleep, ends the loop without
    an error. *)
Theorem interrupt_leaves_watch_loop (pelican : Pelican) (w : World) (n : nat) :
  outcome (tick pelican w) = Raise KeyboardInterrupt ->
  watch_loop (S n) pelican w
  = MkRun (Ret (Some tt)) (final (tick pelican w)) (events (tick pelican w)).
Proof.
  intros H. rewrite watch_loop_step, bind_run.
  unfold watch_iteration, or_break. rewrite H. cbn [outcome final events ret].
  by rewrite app_nil_r.
Qed.

(** X13: any other error in a pass of the watch loop, such as a
    generator that raises during the rebuild, ends the loop with that
    error: later changes are not waited for. *)
Theorem error_ends_watch_loop (pelican : Pelican) (w : World) (n : nat)
    (e : Exn) :
  outcome (tick pelican w) = Raise e ->
  e <> KeyboardInterrupt ->
  watch_loop (S n) pelican w
  = MkRun (Raise e) (final (tick pelican w)) (events (tick pelican w)).
Proof.
  intros H Hne. rewrite watch_loop_step, bind_run.
  unfold watch_iteration, or_break. rewrite H.
  by destruct e.
Qed.

(** X14: in a world in which the two questions answer no and neither
    they nor the sleep change anything, the watch loop never rebuilds
    and never ends: after any number of passes it is still running,
    and all it has done is ask and sleep. *)
Theorem idle_watch_loop (pelican : Pelican) (w : World) (n : nat) :
  files_changed (PyStr (self_path pelican)) (self_markup pelican) w
  = (Ret false, w) ->
  files_changed (self_theme pelican) (PyList [""]) w = (Ret false, w) ->
  sleep w = (Ret tt, w) ->
  watch_loop n pelican w = MkRun (Ret None) w (idle_passes n pelican) /\
  count_runs (idle_passes n pelican) = 0.
Proof.
  intros H1 H2 Hs. split.
  - induction n as [|n IH]; [done|].
    rewrite watch_loop_step, bind_run.
    assert (Ht : tick pelican w
                 = MkRun (Ret tt) w
                     [FilesChanged (PyStr (self_path pelican))
                        (self_markup pelican);
                      FilesChanged (self_theme pelican) (PyList [""]);
                      Sleep]).
    { unfold tick. rewrite bind_run, (poll_run pelican w w w false false H1 H2).
      cbn [outcome final events orb]. rewrite bind_run.
      cbn [ret outcome final events]. rewrite bind_run.
      cbn [emit outcome final events]. unfold call. by rewrite Hs. }
    unfold watch_iteration, or_break. rewrite Ht.
    cbn [outcome final events]. by rewrite IH.
  - induction n as [|n IH]; [done|]. exact IH.
Qed.

(** X15: an error that is no instance of [Exception], such as a
    keyboard interrupt during a single build or a [SystemExit], passes
    through [main] as it is: nothing is logged for it and no exit code
    is made up. *)
Theorem main_lets_base_exceptions_through (args : Args) (n : nat)
    (w w0 w1 : World) (settings : Settings) (cls : PyVal) (e : Exn) :
  log_init (args_verbosity args) w = (Ret tt, w0) ->
  read_settings (args_settings args) w0 = (Ret settings, w1) ->
  outcome (pelican_class settings w1) = Ret cls ->
  let w2 := final (pelican_class settings w1) in
  outcome (main_try cls args settings n w2) = Raise e ->
  is_Exception e = false ->
  main args n w
  = MkRun (Raise e) (final (main_try cls args settings n w2))
      (events (main_try cls args settings n w2)).
Proof.
  intros H0 H1 Hc w2 Ht He.
  rewrite (main_resolved args n w w0 w1 settings cls H0 H1 Hc). fold w2.
  unfold try_except. rewrite Ht, He.
  destruct (main_try cls args settings n w2) as [o f ev].
  cbn [outcome final events] in *. by subst.
Qed.

(** X28: an instance of [Exception] that what [main] tries raises, and
    whose message is ASCII, is logged as critical with its message;
    then the error is raised again under debug verbosity, and
    otherwise [main] exits ([SystemExit]) with the [exitcode]
    attribute of the error when it has one and with 1 when it has
    none. *)
Theorem main_logs_and_exits (args : Args) (n : nat) (w w0 w1 : World)
    (settings : Settings) (cls : PyVal) (e : Exn) :
  log_init (args_verbosity args) w = (Ret tt, w0) ->
  read_settings (args_settings args) w0 = (Ret settings, w1) ->
  outcome (pelican_class settings w1) = Ret cls ->
  let w2 := final (pelican_class settings w1) in
  outcome (main_try cls args settings n w2) = Raise e ->
  is_Exception e = true ->
  first_non_ascii (str e) = None ->
  let r := main args n w in
  events r = events (main_try cls args settings n w2) ++ [Critical (str e)] /\
  final r = final (main_try cls args settings n w2) /\
  outcome r
  = (if bool_decide (args_verbosity args = Some logging_DEBUG) then Raise e
     else Raise (SystemExit (match e with
                             | PyException _ _ (Some c) => c
                             | _ => PyInt 1
                             end))).
Proof.
  intros H0 H1 Hc w2 Ht He Hm r. subst r.
  rewrite (main_resolved args n w w0 w1 settings cls H0 H1 Hc). fold w2.
  unfold try_except. rewrite Ht, He, main_except_run, Hm.
  cbn [outcome final events]. by destruct (bool_decide _).
Qed.

(** X16: an error of [read_settings] is raised by [main] as it is,
    whatever its class: the settings are read before the [try], so
    nothing is logged and nothing is constructed. *)
Theorem main_settings_failure (args : Args) (n : nat) (w w0 w1 : World)
    (e : Exn) :
  log_init (args_verbosity args) w = (Ret tt, w0) ->
  read_settings (args_settings args) w0 = (Raise e, w1) ->
  main args n w = MkRun (Raise e) w1 [].
Proof.
  intros H0 H1. unfold main, mbind, M_bind, bind, call.
  rewrite H0. cbn [outcome final events]. by rewrite H1.
Qed.

Lemma init_events_no_run settings path theme output_path markup del (w : World) :
  List.filter is_run
    (events (__init__ settings path theme output_path markup del w)) = [].
Proof.
  apply filter_none.
  destruct (observer_init settings path theme output_path markup del w)
    as [_ H].
  eapply Forall_impl; [exact H|]. by intros [].
Qed.

(** X17: without [--autoreload], once the class named by the
    settings is found to be [Pelican] and the instance is constructed,
    [main] enters [run] exactly once, whether the build returns or
    raises. *)
Theorem main_builds_once (args : Args) (n : nat) (w w0 w1 : World)
    (settings : Settings) (pelican : Pelican) :
  log_init (args_verbosity args) w = (Ret tt, w0) ->
  read_settings (args_settings args) w0 = (Ret settings, w1) ->
  outcome (pelican_class settings w1) = Ret PyPelicanClass ->
  outcome (__init__ (Some settings) (args_path args) (args_theme args)
             (args_output args) (parse_markup (args_markup args))
             (args_delete_outputdir args)
             (final (pelican_class settings w1))) = Ret pelican ->
  args_autoreload args = false ->
  count_runs (events (main args n w)) = 1.
Proof.
  intros H0 H1 Hc Hi Ha.
  rewrite (main_resolved args n w w0 w1 settings _ H0 H1 Hc).
  set (w2 := final (pelican_class settings w1)) in *.
  unfold try_except, main_try, new_pelican.
  rewrite bind_run, Hi, Ha. cbn [outcome final events].
  pose proof (init_events_no_run (Some settings) (args_path args)
                (args_theme args) (args_output args)
                (parse_markup (args_markup args))
                (args_delete_outputdir args) w2) as Hno.
  destruct (observer_init (Some settings) (args_path args) (args_theme args)
              (args_output args) (parse_markup (args_markup args))
              (args_delete_outputdir args) w2) as [-> _].
  rewrite bind_run.
  pose proof (run_count_runs pelican w2) as Hone. unfold count_runs in *.
  destruct (run pelican w2) as [[[]|e] w3 ev3];
    cbn [outcome final events ret] in *.
  - by rewrite !filter_app_events, Hno, !length_app, Hone.
  - destruct (is_Exception e); cbn [events].
    + by rewrite !filter_app_events, Hno, main_except_no_run, !length_app,
        Hone.
    + by rewrite !filter_app_events, Hno, !length_app, Hone.
Qed.

(** X18: when the instance cannot be constructed, [main] never enters
    [run], with or without [--autoreload]. *)
Theorem main_without_instance_never_builds (args : Args) (n : nat)
    (w w0 w1 : World) (settings : Settings) (e : Exn) :
  log_init (args_verbosity args) w = (Ret tt, w0) ->
  read_settings (args_settings args) w0 = (Ret settings, w1) ->
  outcome (__init__ (Some settings) (args_path args) (args_theme args)
             (args_output args) (parse_markup (args_markup args))
             (args_delete_outputdir args)
             (final (pelican_class settings w1))) = Raise e ->
  count_runs (events (main args n w)) = 0.
Proof.
  intros H0 H1 Hi.
  destruct (outcome (pelican_class settings w1)) as [cls|e'] eqn:Hc.
  - rewrite (main_resolved args n w w0 w1 settings cls H0 H1 Hc).
    set (w2 := final (pelican_class settings w1)) in *.
    pose proof (init_events_no_run (Some settings) (args_path args)
                  (args_theme args) (args_output args)
                  (parse_markup (args_markup args))
                  (args_delete_outputdir args) w2) as Hno.
    assert (Hraise : exists e1,
               outcome (new_pelican cls settings (args_path args)
                          (args_theme args) (args_output args)
                          (parse_markup (args_markup args))
                          (args_delete_outputdir args) w2) = Raise e1
               /\ List.filter is_run
                    (events (new_pelican cls settings (args_path args)
                               (args_theme args) (args_output args)
                               (parse_markup (args_markup args))
                               (args_delete_outputdir args) w2)) = []).
    { destruct cls; cbn [new_pelican]; by eexists. }
    destruct Hraise as (e1 & He1 & Hno1).
    unfold try_except, main_try. rewrite bind_run, He1.
    cbn [outcome final events]. unfold count_runs.
    destruct (is_Exception e1); cbn [events]; [|by rewrite Hno1].
    by rewrite filter_app_events, Hno1, main_except_no_run.
  - unfold main, mbind, M_bind, bind, call.
    rewrite H0. cbn [outcome final events]. rewrite H1.
    cbn [outcome final events app]. rewrite Hc, pelican_class_events.
    done.
Qed.

(** X29: when the settings say nothing about [PELICAN_CLASS], there
    is no class to call: line 209 raises a [TypeError] inside the
    [try], which [main] reports like any other failure.  Nothing is
    constructed and nothing is built. *)
Theorem main_without_pelican_class (args : Args) (n : nat) (w w0 w1 : World)
    (settings : Settings) :
  log_init (args_verbosity args) w = (Ret tt, w0) ->
  read_settings (args_settings args) w0 = (Ret settings, w1) ->
  settings !! "PELICAN_CLASS" = None ->
  main args n w
  = MkRun (if bool_decide (args_verbosity args = Some logging_DEBUG)
           then Raise (TypeError "'NoneType' object is not callable")
           else Raise (SystemExit (PyInt 1)))
      w1 [Critical "'NoneType' object is not callable"].
Proof.
  intros H0 H1 Hn.
  assert (Hc : pelican_class settings w1 = MkRun (Ret PyNone) w1 []).
  { unfold pelican_class. by rewrite Hn. }
  rewrite (main_resolved args n w w0 w1 settings PyNone H0 H1)
    by (by rewrite Hc).
  rewrite Hc. cbn [final]. unfold try_except, main_try.
  rewrite bind_run. cbn [new_pelican raise outcome final events is_Exception
                         not_callable TypeError].
  rewrite main_except_run. reflexivity.
Qed.

End EntryFurther.

(** ** Construction, further *)

Lemma bind_ret_inv {S A B} (m : M S A) (k : A -> M S B) (s : S) b :
  outcome ((m ≫= k) s) = Ret b ->
  exists a, outcome (m s) = Ret a /\ outcome (k a (final (m s))) = Ret b.
Proof.
  rewrite bind_run. destruct (outcome (m s)) as [a|e]; [|done].
  intros H. by exists a.
Qed.

Section ConstructionFurther.

Context {World : Type} `{Ext : Externals World}.

Lemma or_setting_final a k (h : Heap World) : final (or_setting a k h) = h.
Proof. by rewrite or_setting_run. Qed.

Lemma or_setting_inv a k (h : Heap World) v :
  outcome (or_setting a k h) = Ret v ->
  if truthy a then v = a else snd h !! k = Some v.
Proof.
  rewrite or_setting_run. cbn [outcome]. destruct (truthy a);
    [by intros [= <-]|].
  destruct (snd h !! k); [by intros [= <-]|done].
Qed.

(** What the attributes of a constructed instance are, read off lines
    29-50. *)
Lemma init_attributes_inv settings path theme output_path markup del
    (w : World) self :
  outcome (init_attributes settings path theme output_path markup del w)
  = Ret self ->
  let cfg := default _DEFAULT_CONFIG settings in
  exists p out,
    (if truthy (of_arg path) then of_arg path = PyStr p
     else cfg !! "PATH" = Some (PyStr p)) /\
    p <> "" /\
    self_path self = (if endswith_slash p then drop_last p else p) /\
    outcome (_handle_deprecation cfg) = Ret tt /\
    self_settings self = final (_handle_deprecation cfg) /\
    (if truthy (of_arg theme) then self_theme self = of_arg theme
     else self_settings self !! "THEME" = Some (self_theme self)) /\
    (if truthy (of_arg output_path) then of_arg output_path = PyStr out
     else self_settings self !! "OUTPUT_PATH" = Some (PyStr out)) /\
    self_output_path self = realpath w out /\
    (match markup with
     | Some ((_ :: _) as l) => self_markup self = PyList l
     | _ => self_settings self !! "MARKUP" = Some (self_markup self)
     end) /\
    (if del then self_delete_outputdir self = PyBool true
     else self_settings self !! "DELETE_OUTPUT_DIRECTORY"
          = Some (self_delete_outputdir self)).
Proof.
  intros H cfg. unfold init_attributes, by_value in H. cbn [outcome] in H.
  fold cfg in H. unfold init_attributes_in_place in H.
  apply bind_ret_inv in H as (p0 & Hp0 & H).
  rewrite or_setting_final in H. apply or_setting_inv in Hp0.
  cbn [snd] in Hp0.
  apply bind_ret_inv in H as ([] & Hne & H).
  unfold raise_if in Hne, H.
  destruct (truthy p0) eqn:Htp; cbn [negb] in Hne, H; [|done].
  cbn [ret final] in H.
  apply bind_ret_inv in H as (p & Hp & H).
  destruct p0 as [| | |p'| |]; try done. cbn [expect_str_attr] in Hp, H.
  injection Hp as <-. cbn [ret final] in H.
  apply bind_ret_inv in H as ([] & Hmo & H).
  unfold in_settings in Hmo, H. cbn [outcome final fst snd] in Hmo, H.
  apply bind_ret_inv in H as (th & Hth & H).
  rewrite or_setting_final in H. apply or_setting_inv in Hth.
  cbn [snd] in Hth.
  apply bind_ret_inv in H as (out0 & Hout0 & H).
  rewrite or_setting_final in H. apply or_setting_inv in Hout0.
  cbn [snd] in Hout0.
  apply bind_ret_inv in H as (out & Hout & H).
  destruct out0 as [| | |out'| |]; try done. cbn [expect_str_attr] in Hout, H.
  injection Hout as <-. cbn [ret final] in H.
  apply bind_ret_inv in H as (out1 & Hout1 & H).
  unfold in_world in Hout1, H.
  cbn [ask ret outcome final fst snd] in Hout1, H. injection Hout1 as <-.
  apply bind_ret_inv in H as (mk & Hmk & H).
  rewrite or_setting_final in H. apply or_setting_inv in Hmk.
  cbn [snd] in Hmk.
  apply bind_ret_inv in H as (d & Hd & H).
  rewrite or_setting_final in H. apply or_setting_inv in Hd.
  cbn [snd] in Hd.
  apply bind_ret_inv in H as (s' & Hs' & H).
  unfold the_settings in Hs', H. cbn [ret outcome final snd] in Hs', H.
  injection Hs' as <-. injection H as <-. cbn.
  exists p', out'. repeat split; try done.
  - by destruct (truthy (of_arg path)).
  - intros ->. done.
  - by destruct (truthy (of_arg output_path)).
  - destruct markup as [[|a l]|]; cbn in Hmk; by subst.
  - destruct del; cbn in Hd; by subst.
Qed.

Lemma init_inv settings path theme output_path markup del (w : World) self :
  outcome (__init__ settings path theme output_path markup del w) = Ret self ->
  exists attrs,
    outcome (init_attributes settings path theme output_path markup del w)
    = Ret attrs /\
    outcome (find_theme theme attrs w) = Ret self.
Proof.
  rewrite init_outcome.
  destruct (outcome (init_attributes settings path theme output_path markup
                       del w)) as [attrs|e]; [|done].
  intros H. by exists attrs.
Qed.

(** The lookup of the theme changes no attribute but the theme, which
    becomes the bundled theme exactly when the given one does not
    exist. *)
Lemma find_theme_inv theme attrs (w : World) self :
  outcome (find_theme theme attrs w) = Ret self ->
  exists given th,
    self_theme attrs = PyStr given /\
    self = with_theme attrs th /\
    path_exists w th = true /\
    th = (if path_exists w given then given else bundled_theme given).
Proof.
  destruct attrs as [p s t o m d]. cbn [self_theme].
  destruct t as [| | |given| |]; try done.
  rewrite (find_theme_outcome theme (MkPelican p s (PyStr given) o m d)
             given w eq_refl).
  destruct (path_exists w given) eqn:E1.
  - intros [= <-]. exists given, given. by rewrite E1.
  - destruct (path_exists w (bundled_theme given)) eqn:E2; [|done].
    intros [= <-]. exists given, (bundled_theme given). by rewrite E1.
Qed.

(** X19: the theme of a constructed instance exists.  With the given
    theme being the argument, or the setting [THEME] when there is no
    argument, it is the given theme when that is an existing path, and
    the bundled theme of that name when it is not. *)
Theorem constructed_theme_exists (settings : option Settings)
    (path theme output_path : option string)
    (markup : option (list string)) (del : bool) (w : World) (self : Pelican) :
  outcome (__init__ settings path theme output_path markup del w) = Ret self ->
  exists given,
    (if truthy (of_arg theme) then theme = Some given
     else self_settings self !! "THEME" = Some (PyStr given)) /\
    self_theme self
    = PyStr (if path_exists w given then given else bundled_theme given) /\
    path_exists w (if path_exists w given then given else bundled_theme given)
    = true.
Proof.
  intros H. apply init_inv in H as (attrs & Ha & H).
  apply find_theme_inv in H as (given & th & Hg & -> & Hex & ->).
  apply init_attributes_inv in Ha as (p & out & Hrest).
  destruct Hrest as (_ & _ & _ & _ & _ & Hth & _).
  exists given. cbn [with_theme self_theme self_settings].
  split; [|by split]. rewrite Hg in Hth.
  destruct theme as [a|]; cbn in *; [|done].
  destruct (negb (String.eqb a "")); [by injection Hth as ->|done].
Qed.

Lemma drop_last_slash p :
  endswith_slash p = true -> drop_last p +:+ "/" = p.
Proof.
  induction p as [|c p IH]; [done|]. cbn [endswith_slash drop_last].
  destruct p as [|d p].
  - intros H. apply Ascii.eqb_eq in H. by subst.
  - intros H. cbn [String.append]. f_equal. by apply IH.
Qed.

(** X20: the content path of a constructed instance is the given path
    (the argument, or the setting [PATH] when there is no argument),
    which is not empty, without one trailing separator if it has one;
    putting the separator back gives the given path. *)
Theorem constructed_path (settings : option Settings)
    (path theme output_path : option string)
    (markup : option (list string)) (del : bool) (w : World) (self : Pelican) :
  outcome (__init__ settings path theme output_path markup del w) = Ret self ->
  exists p,
    (if truthy (of_arg path) then path = Some p
     else default _DEFAULT_CONFIG settings !! "PATH" = Some (PyStr p)) /\
    p <> "" /\
    self_path self = (if endswith_slash p then drop_last p else p) /\
    (endswith_slash p = true -> self_path self +:+ "/" = p).
Proof.
  intros H. apply init_inv in H as (attrs & Ha & H).
  apply find_theme_inv in H as (given & th & _ & -> & _).
  apply init_attributes_inv in Ha as (p & out & Hp & Hne & Hpath & _).
  exists p. cbn [with_theme self_path]. rewrite Hpath. repeat split; try done.
  - destruct path as [a|]; cbn in *; [|done].
    destruct (negb (String.eqb a "")); [by injection Hp as ->|done].
  - intros Hs. rewrite Hs. by apply drop_last_slash.
Qed.

(** X21: a constructed instance holds the migrated settings: the
    migration of the deprecated settings has returned, what it left is
    the settings of the instance, and these are the settings and the
    context of every generator that [run] constructs for it and the
    settings of its writer. *)
Theorem constructed_settings_are_migrated (settings : option Settings)
    (path theme output_path : option string)
    (markup : option (list string)) (del : bool) (w : World) (self : Pelican) :
  outcome (__init__ settings path theme output_path markup del w) = Ret self ->
  let cfg := default _DEFAULT_CONFIG settings in
  outcome (_handle_deprecation cfg) = Ret tt /\
  self_settings self = final (_handle_deprecation cfg) /\
  (forall w' generators,
     outcome (setup self w') = Ret generators ->
     Forall (fun p => ga_settings (gen_args p) = final (_handle_deprecation cfg)
                      /\ ga_context (gen_args p)
                         = final (_handle_deprecation cfg))
       generators) /\
  (forall w' writer,
     outcome (get_writer self w') = Ret writer ->
     writer_settings writer = final (_handle_deprecation cfg)).
Proof.
  intros H cfg. apply init_inv in H as (attrs & Ha & H).
  apply find_theme_inv in H as (given & th & _ & -> & _).
  apply init_attributes_inv in Ha as (p & out & _ & _ & _ & Ho & Hs & _).
  cbn [with_theme self_settings]. fold cfg in Ho, Hs.
  split; [done|]. split; [done|]. split.
  - intros w' generators Hg.
    apply setup_ret in Hg as (classes & _ & -> & _).
    induction classes as [|cls classes IH]; constructor; [|exact IH].
    cbn [gen_args generator_args with_theme self_settings ga_settings
         ga_context]. by rewrite Hs.
  - intros w' writer Hw. unfold get_writer in Hw.
    rewrite !bind_run in Hw. cbn [emit outcome final events] in Hw.
    unfold call in Hw.
    destruct (new_writer _ _ w') as [[[]|e] w1];
      cbn [ret outcome final events] in Hw; [|done].
    injection Hw as <-. cbn [writer_settings with_theme self_settings].
    exact Hs.
Qed.

(** X22: the delete flag of a constructed instance is set exactly when
    the argument is, or the setting [DELETE_OUTPUT_DIRECTORY] holds a
    true value: the command line can switch the deletion on, not
    off. *)
Theorem constructed_delete_flag (settings : option Settings)
    (path theme output_path : option string)
    (markup : option (list string)) (del : bool) (w : World) (self : Pelican) :
  outcome (__init__ settings path theme output_path markup del w) = Ret self ->
  truthy (self_delete_outputdir self)
  = del || truthy (default PyNone
                     (self_settings self !! "DELETE_OUTPUT_DIRECTORY")).
Proof.
  intros H. apply init_inv in H as (attrs & Ha & H).
  apply find_theme_inv in H as (given & th & _ & -> & _).
  apply init_attributes_inv in Ha as (p & out & Hrest).
  destruct Hrest as (_ & _ & _ & _ & _ & _ & _ & _ & _ & Hd).
  cbn [with_theme self_delete_outputdir self_settings].
  destruct del; [by rewrite Hd|]. by rewrite Hd.
Qed.

(** X23: the output path of a constructed instance is the canonical
    form, at the time of construction, of the given output path (the
    argument, or the setting [OUTPUT_PATH] when there is no
    argument). *)
Theorem constructed_output_path (settings : option Settings)
    (path theme output_path : option string)
    (markup : option (list string)) (del : bool) (w : World) (self : Pelican) :
  outcome (__init__ settings path theme output_path markup del w) = Ret self ->
  exists out,
    (if truthy (of_arg output_path) then output_path = Some out
     else self_settings self !! "OUTPUT_PATH" = Some (PyStr out)) /\
    self_output_path self = realpath w out.
Proof.
  intros H. apply init_inv in H as (attrs & Ha & H).
  apply find_theme_inv in H as (given & th & _ & -> & _).
  apply init_attributes_inv in Ha as (p & out & Hrest).
  destruct Hrest as (_ & _ & _ & _ & _ & _ & Ho & Hr & _).
  exists out. cbn [with_theme self_output_path self_settings].
  split; [|done].
  destruct output_path as [a|]; cbn in *; [|done].
  destruct (negb (String.eqb a "")); [by injection Ho as ->|done].
Qed.

End ConstructionFurther.

(** ** The markup list of the command line *)

Lemma split_comma_not_nil s : split_comma s <> [].
Proof.
  destruct s as [|c s]; [done|]. cbn [split_comma].
  destruct (Ascii.eqb c ","%char); [done|]. by destruct (split_comma s).
Qed.

Lemma join_with_cons sep x y l :
  join_with sep (x :: y :: l) = x +:+ sep +:+ join_with sep (y :: l).
Proof. reflexivity. Qed.

Lemma split_comma_length (s : string) :
  length (split_comma s) = S (occurrences "," s).
Proof.
  induction s as [|c s IH]; [done|]. cbn [split_comma occurrences].
  pose proof (split_comma_not_nil s) as Hne.
  destruct (Ascii.eqb c ","%char);
    destruct (split_comma s) as [|h t] eqn:E; try done;
    cbn [length] in *; lia.
Qed.

(** X24: splitting at the commas loses nothing: joining the parts with
    commas gives the string back, and there is one part more than
    there are commas. *)
Theorem split_comma_join (s : string) :
  join_with "," (split_comma s) = s /\
  length (split_comma s) = S (occurrences "," s).
Proof.
  split; [|apply split_comma_length].
  induction s as [|c s IH]; [done|]. cbn [split_comma].
  pose proof (split_comma_not_nil s) as Hne.
  destruct (Ascii.eqb_spec c ","%char) as [->|Hc];
    destruct (split_comma s) as [|h t] eqn:E; try done.
  - rewrite join_with_cons, IH. reflexivity.
  - rewrite <- IH. destruct t as [|y t]; [done|].
    by rewrite !join_with_cons.
Qed.

Lemma lower_char_idempotent (c : ascii) :
  let lc (c : ascii) :=
    if between 65 90 c then ascii_of_nat (code c + 32) else c in
  lc (lc c) = lc c /\ is_space (lc c) = is_space c.
Proof.
  destruct c as [b0 b1 b2 b3 b4 b5 b6 b7].
  destruct b0, b1, b2, b3, b4, b5, b6, b7; vm_compute; done.
Qed.

Lemma lower_lower s : lower (lower s) = lower s.
Proof.
  induction s as [|c s IH]; [done|]. cbn [lower]. rewrite IH. f_equal.
  apply lower_char_idempotent.
Qed.

Lemma lower_empty s : String.eqb (lower s) "" = String.eqb s "".
Proof. by destruct s. Qed.

Lemma lstrip_lower s : lstrip (lower s) = lower (lstrip s).
Proof.
  induction s as [|c s IH]; [done|]. cbn [lower lstrip].
  rewrite (proj2 (lower_char_idempotent c)).
  destruct (is_space c); [exact IH|reflexivity].
Qed.

Lemma rstrip_lower s : rstrip (lower s) = lower (rstrip s).
Proof.
  induction s as [|c s IH]; [done|]. cbn [lower rstrip].
  rewrite (proj2 (lower_char_idempotent c)), IH, lower_empty.
  by destruct (is_space c && String.eqb (rstrip s) "").
Qed.

Lemma rstrip_rstrip s : rstrip (rstrip s) = rstrip s.
Proof.
  induction s as [|c s IH]; [done|]. cbn [rstrip].
  destruct (is_space c && String.eqb (rstrip s) "") eqn:E; [done|].
  cbn [rstrip]. by rewrite IH, E.
Qed.

Lemma lstrip_strip s : lstrip (strip s) = strip s.
Proof.
  unfold strip. induction s as [|c s IH]; [done|]. cbn [lstrip].
  destruct (is_space c) eqn:E; [exact IH|].
  cbn [rstrip]. rewrite E. cbn [andb lstrip]. by rewrite E.
Qed.

Lemma strip_strip s : strip (strip s) = strip s.
Proof.
  unfold strip at 1. rewrite lstrip_strip. unfold strip.
  apply rstrip_rstrip.
Qed.

Lemma strip_lower s : strip (lower s) = lower (strip s).
Proof. unfold strip. by rewrite lstrip_lower, rstrip_lower. Qed.

Lemma Forall_map_strings (f : string -> string) (P : string -> Prop) l :
  (forall a, P (f a)) -> Forall P (map f l).
Proof. intros H. induction l; constructor; auto. Qed.

(** X25: the markup list is made only for a non-empty option value; it
    has one entry per comma-separated part, and every entry is in
    lower case and has no white space around it. *)
Theorem parse_markup_normalised (markup : option string) (l : list string) :
  parse_markup markup = Some l ->
  exists s, markup = Some s /\ s <> "" /\
    length l = S (occurrences "," s) /\
    Forall (fun a => lower a = a /\ strip a = a) l.
Proof.
  destruct markup as [s|]; [|done]. cbn [parse_markup truthy].
  destruct (String.eqb_spec s "") as [->|Hne]; [done|].
  cbn [negb]. intros [= <-]. exists s. split; [done|]. split; [done|].
  split; [by rewrite length_map, split_comma_length|].
  apply Forall_map_strings. intros a. split.
  - apply lower_lower.
  - by rewrite strip_lower, strip_strip.
Qed.

Lemma parse_markup_normalised_witness :
  exists s, Some " RST, md " = Some s /\ s <> "" /\
    length ["rst"; "md"] = S (occurrences "," s) /\
    Forall (fun a => lower a = a /\ strip a = a) ["rst"; "md"].
Proof.
  apply (parse_markup_normalised (Some " RST, md ") ["rst"; "md"]).
  reflexivity.
Defined.

(** ** Two more compositions *)

Section Compositions.

Context {World : Type} `{Ext : Externals World}.

(** X26: when the content tree reports a change, the theme tree is not
    asked: the [or] of line 219 stops at its first true operand, so
    whatever [files_changed] would have recorded for the theme tree is
    left for a later pass. *)
Theorem content_change_skips_theme_question (pelican : Pelican)
    (w w1 : World) :
  files_changed (PyStr (self_path pelican)) (self_markup pelican) w
  = (Ret true, w1) ->
  poll pelican w
  = MkRun (Ret true) w1
      [FilesChanged (PyStr (self_path pelican)) (self_markup pelican)].
Proof.
  intros H. unfold poll, mbind, M_bind, bind, call, emit.
  cbn [outcome final events]. by rewrite H.
Qed.

(** X27: when the migration of the deprecated settings raises, for
    instance for a missing key, the construction of the instance
    raises the same error, after the warnings the migration had
    logged.  No collaborator is called: the world is as it was.  The
    dict that was handed over is not: it is left as the migration had
    rewritten it when it raised. *)
Theorem failed_migration_fails_construction (settings : Settings)
    (p : string) (theme output_path : option string)
    (markup : option (list string)) (del : bool) (w : World) (e : Exn) :
  p <> "" ->
  outcome (_handle_deprecation settings) = Raise e ->
  init_in_place (Some p) theme output_path markup del (w, settings)
  = MkRun (Raise e) (w, final (_handle_deprecation settings))
      (events (_handle_deprecation settings)) /\
  __init__ (Some settings) (Some p) theme output_path markup del w
  = MkRun (Raise e) w (events (_handle_deprecation settings)).
Proof.
  intros Hp He.
  assert (Hb : String.eqb p "" = false) by (by destruct (String.eqb_spec p "")).
  assert (Hin : init_in_place (Some p) theme output_path markup del
                  (w, settings)
                = MkRun (Raise e) (w, final (_handle_deprecation settings))
                    (events (_handle_deprecation settings))).
  { unfold init_in_place, init_attributes_in_place.
    rewrite bind_run, bind_run, or_setting_run. cbn [of_arg truthy].
    rewrite Hb. cbn [negb outcome final events].
    rewrite bind_run. unfold raise_if. cbn [truthy]. rewrite Hb.
    cbn [negb ret outcome final events].
    rewrite bind_run. cbn [expect_str_attr ret outcome final events].
    rewrite bind_run. unfold in_settings. cbn [outcome final events fst snd].
    rewrite He. reflexivity. }
  split; [exact Hin|].
  unfold __init__, by_value. cbn [default id]. by rewrite Hin.
Qed.

End Compositions.

Lemma content_change_skips_theme_question_witness :
  events (poll (Stub.pelican_of "/a/b" "/out" false) Stub.tree_watched2)
  = [FilesChanged (PyStr "/a/b") (PyList ["rst"; "md"])].
Proof.
  by rewrite (content_change_skips_theme_question (Ext := Stub.externals)
                (Stub.pelican_of "/a/b" "/out" false)
                Stub.tree_watched2 Stub.tree_watched3 eq_refl).
Defined.

Lemma failed_migration_fails_construction_witness :
  outcome (__init__ (Some incomplete_settings) (Some "/a/b") None None None
             false Stub.tree)
  = Raise (KeyError "ARTICLE_LANG_URL") /\
  incomplete_settings !! "ARTICLE_URL" = Some (PyStr "{slug}.html") /\
  snd (final (init_in_place (Some "/a/b") None None None false
                (Stub.tree, incomplete_settings)))
  !! "ARTICLE_URL"
  = Some (PyStr "{date:%Y}/{date:%m}/{category}/{slug}.html").
Proof.
  assert (H : outcome (_handle_deprecation incomplete_settings)
              = Raise (KeyError "ARTICLE_LANG_URL"))
    by (vm_compute; reflexivity).
  destruct (failed_migration_fails_construction (Ext := Stub.externals)
              incomplete_settings "/a/b" None None None false
              Stub.tree _ ltac:(discriminate) H) as [Hin Hinit].
  rewrite Hin, Hinit. cbn [outcome final snd].
  split; [reflexivity|]. split; vm_compute; reflexivity.
Defined.

(** ** The further properties on the test doubles *)

Lemma run_without_pdf_setting_witness :
  run pelican_without_pdf Stub.tree
  = MkRun (Raise (KeyError "PDF_GENERATOR")) Stub.tree [CallRun].
Proof.
  apply (run_without_pdf_setting pelican_without_pdf Stub.tree).
  vm_compute. reflexivity.
Defined.

Lemma run_without_delete_flag_witness :
  Forall (fun ev => is_cleanup ev = false)
    (events (run (Stub.pelican_of "/a/b" "/a/b/output" false) Stub.tree)).
Proof.
  exact (proj1 (run_without_delete_flag
                  (Stub.pelican_of "/a/b" "/a/b/output" false) Stub.tree
                  eq_refl)).
Defined.


Lemma constructor_failure_stops_run_witness :
  outcome (run (Stub.pelican_of "/a/b" "/out" false) Faulty.bad_pages)
  = Raise Stub.generation_error.
Proof.
  apply (constructor_failure_stops_run
           (Stub.pelican_of "/a/b" "/out" false) Faulty.bad_pages
           Stub.generation_error).
  vm_compute. reflexivity.
Defined.

Lemma interrupt_leaves_watch_loop_witness :
  outcome (watch_loop 1 (Stub.pelican_of "/a/b" "/out" false)
             Faulty.interrupted_sleep)
  = Ret (Some tt).
Proof.
  assert (H : outcome (tick (Stub.pelican_of "/a/b" "/out" false)
                         Faulty.interrupted_sleep) = Raise KeyboardInterrupt)
    by (vm_compute; reflexivity).
  by rewrite (interrupt_leaves_watch_loop _ _ 0 H).
Defined.

Lemma error_ends_watch_loop_witness :
  outcome (watch_loop 1 (Stub.pelican_of "/a/b" "/out" false)
             tree_broken_changed)
  = Raise Stub.generation_error.
Proof.
  assert (H : outcome (tick (Stub.pelican_of "/a/b" "/out" false)
                         tree_broken_changed) = Raise Stub.generation_error)
    by (vm_compute; reflexivity).
  rewrite (error_ends_watch_loop _ _ 0 _ H); [reflexivity|discriminate].
Defined.

Lemma idle_watch_loop_witness :
  watch_loop 3 (Stub.pelican_of "/a/b" "/out" false) Stub.tree
  = MkRun (Ret None) Stub.tree
      (idle_passes 3 (Stub.pelican_of "/a/b" "/out" false)).
Proof.
  exact (proj1 (idle_watch_loop (Stub.pelican_of "/a/b" "/out" false)
                  Stub.tree 3 eq_refl eq_refl eq_refl)).
Defined.

Lemma main_lets_base_exceptions_through_witness :
  outcome (main Faulty.build_once 0 Faulty.interrupted_build)
  = Raise KeyboardInterrupt.
Proof.
  assert (Hc : outcome (pelican_class Stub.default_config
                          Faulty.interrupted_build)
               = Ret PyPelicanClass) by (vm_compute; reflexivity).
  assert (H : outcome (main_try PyPelicanClass Faulty.build_once
                         Stub.default_config 0
                         (final (pelican_class Stub.default_config
                                   Faulty.interrupted_build)))
              = Raise KeyboardInterrupt)
    by (vm_compute; reflexivity).
  by rewrite (main_lets_base_exceptions_through (Ext := Faulty.externals)
                Faulty.build_once 0 Faulty.interrupted_build
                Faulty.interrupted_build Faulty.interrupted_build
                Stub.default_config PyPelicanClass KeyboardInterrupt
                eq_refl eq_refl Hc H eq_refl).
Defined.

(** No content path on the command line and none in the settings: the
    constructor raises, [main] logs the message and exits with 1. *)
Lemma main_logs_and_exits_witness :
  outcome (main Stub.no_path 0 Stub.tree) = Raise (SystemExit (PyInt 1)) /\
  events (main Stub.no_path 0 Stub.tree)
  = [Critical ("You need to specify a path containing the content"
               +:+ " (see pelican --help for more information)")].
Proof.
  assert (Hc : outcome (pelican_class Stub.default_config Stub.tree)
               = Ret PyPelicanClass) by (vm_compute; reflexivity).
  assert (H : outcome (main_try PyPelicanClass Stub.no_path
                         Stub.default_config 0
                         (final (pelican_class Stub.default_config Stub.tree)))
              = Raise (Exception
                         ("You need to specify a path containing the content"
                          +:+ " (see pelican --help for more information)")))
    by (vm_compute; reflexivity).
  assert (Hm : first_non_ascii
                 (str (Exception
                         ("You need to specify a path containing the content"
                          +:+ " (see pelican --help for more information)")))
               = None) by (vm_compute; reflexivity).
  destruct (main_logs_and_exits (Ext := Stub.externals) Stub.no_path 0
              Stub.tree Stub.tree Stub.tree Stub.default_config
              PyPelicanClass _ eq_refl eq_refl Hc H eq_refl Hm)
    as (Hev & _ & Hout).
  split; [exact Hout|]. rewrite Hev. vm_compute. reflexivity.
Defined.

Lemma main_without_pelican_class_witness :
  main Faulty.build_once 0 Faulty.classless
  = MkRun (Raise (SystemExit (PyInt 1))) Faulty.classless
      [Critical "'NoneType' object is not callable"].
Proof.
  assert (Hn : delete "PELICAN_CLASS" Stub.default_config !! "PELICAN_CLASS"
               = None) by (vm_compute; reflexivity).
  exact (main_without_pelican_class (Ext := Faulty.externals)
           Faulty.build_once 0 Faulty.classless Faulty.classless
           Faulty.classless _ eq_refl eq_refl Hn).
Defined.

Lemma main_settings_failure_witness :
  main Faulty.build_once 0 Faulty.unreadable
  = MkRun (Raise Faulty.settings_error) Faulty.unreadable [].
Proof.
  exact (main_settings_failure (Ext := Faulty.externals) Faulty.build_once 0
           Faulty.unreadable Faulty.unreadable Faulty.unreadable
           Faulty.settings_error eq_refl eq_refl).
Defined.

Lemma main_builds_once_witness :
  count_runs (events (main Faulty.build_once 0 Faulty.sound)) = 1.
Proof.
  assert (Hc : outcome (pelican_class Stub.default_config Faulty.sound)
               = Ret PyPelicanClass) by (vm_compute; reflexivity).
  assert (H : outcome (__init__ (Some Stub.default_config) (Some "/a/b") None
                         (Some "/out") (parse_markup None) false
                         (final (pelican_class Stub.default_config
                                   Faulty.sound)))
              = Ret (Stub.pelican_of "/a/b" "/out" false))
    by (vm_compute; reflexivity).
  exact (main_builds_once (Ext := Faulty.externals) Faulty.build_once 0
           Faulty.sound Faulty.sound Faulty.sound Stub.default_config
           (Stub.pelican_of "/a/b" "/out" false) eq_refl eq_refl Hc H eq_refl).
Defined.

Lemma main_without_instance_never_builds_witness :
  count_runs (events (main Stub.no_path 5 Stub.tree)) = 0.
Proof.
  assert (H : outcome (__init__ (Some Stub.default_config) None None None
                         (parse_markup None) false
                         (final (pelican_class Stub.default_config Stub.tree)))
              = Raise (Exception
                         ("You need to specify a path containing the content"
                          +:+ " (see pelican --help for more information)")))
    by (vm_compute; reflexivity).
  exact (main_without_instance_never_builds (Ext := Stub.externals)
           Stub.no_path 5 Stub.tree Stub.tree Stub.tree Stub.default_config _
           eq_refl eq_refl H).
Defined.

Lemma constructed_in_tree :
  outcome (__init__ (Some Stub.default_config) (Some "/a/b/") None
             (Some "/a/b/output") None true Stub.tree)
  = Ret (Stub.pelican_of "/a/b" "/a/b/output" true).
Proof. vm_compute. reflexivity. Qed.

Lemma constructed_theme_exists_witness :
  exists given,
    (if truthy (of_arg None) then None = Some given
     else self_settings (Stub.pelican_of "/a/b" "/a/b/output" true) !! "THEME"
          = Some (PyStr given)) /\
    self_theme (Stub.pelican_of "/a/b" "/a/b/output" true)
    = PyStr (if path_exists Stub.tree given then given
             else bundled_theme given) /\
    path_exists Stub.tree
      (if path_exists Stub.tree given then given else bundled_theme given)
    = true.
Proof. exact (constructed_theme_exists _ _ _ _ _ _ _ _ constructed_in_tree). Defined.

Lemma constructed_path_witness :
  exists p,
    (if truthy (of_arg (Some "/a/b/")) then Some "/a/b/" = Some p
     else default _DEFAULT_CONFIG (Some Stub.default_config) !! "PATH"
          = Some (PyStr p)) /\
    p <> "" /\
    self_path (Stub.pelican_of "/a/b" "/a/b/output" true)
    = (if endswith_slash p then drop_last p else p) /\
    (endswith_slash p = true ->
     self_path (Stub.pelican_of "/a/b" "/a/b/output" true) +:+ "/" = p).
Proof. exact (constructed_path _ _ _ _ _ _ _ _ constructed_in_tree). Defined.

Lemma constructed_settings_are_migrated_witness :
  self_settings (Stub.pelican_of "/a/b" "/a/b/output" true)
  = final (_handle_deprecation Stub.default_config) /\
  Forall (fun p => ga_settings (gen_args p)
                   = final (_handle_deprecation Stub.default_config)
                   /\ ga_context (gen_args p)
                      = final (_handle_deprecation Stub.default_config))
    (Stub.generators_of (Stub.pelican_of "/a/b" "/a/b/output" true)).
Proof.
  destruct (constructed_settings_are_migrated _ _ _ _ _ _ _ _
              constructed_in_tree) as (_ & Hs & Hg & _).
  split; [exact Hs|]. apply (Hg Stub.tree). vm_compute. reflexivity.
Defined.

Lemma constructed_delete_flag_witness :
  truthy (self_delete_outputdir (Stub.pelican_of "/a/b" "/a/b/output" true))
  = true
    || truthy (default PyNone
                 (self_settings (Stub.pelican_of "/a/b" "/a/b/output" true)
                    !! "DELETE_OUTPUT_DIRECTORY")).
Proof. exact (constructed_delete_flag _ _ _ _ _ _ _ _ constructed_in_tree). Defined.

Lemma constructed_output_path_witness :
  exists out,
    (if truthy (of_arg (Some "/a/b/output")) then Some "/a/b/output" = Some out
     else self_settings (Stub.pelican_of "/a/b" "/a/b/output" true)
            !! "OUTPUT_PATH" = Some (PyStr out)) /\
    self_output_path (Stub.pelican_of "/a/b" "/a/b/output" true)
    = realpath Stub.tree out.
Proof. exact (constructed_output_path _ _ _ _ _ _ _ _ constructed_in_tree). Defined.
